(** * open_route_service: the travel-time sensor of
      custom_components/open_route_service/sensor.py

    A shallow embedding of the module and the properties of its
    specification.  Python values are embedded as follows.

    - [str] is [string]; a [dict] with string keys is a [gmap string _];
      [None] is the [None] of an [option].
    - [float] is the kernel's binary64 [float], so [/] is [PrimFloat.div] and
      the literals [1609.344], [1000] and [60] denote the doubles Python
      reads.
    - A raised exception is the [Raise] outcome of a computation; a
      computation that mutates [self] threads the object through and keeps
      the mutations made before an exception.
    - The JSON documents the routing client returns are records typed after
      the shape the code reads ([routes[0].summary.duration], ...): a field
      is [None] when the key is absent ([KeyError]) and a list may be empty
      ([IndexError]).  Values of another JSON type than the one the code's
      annotations expect are outside the model. *)

From Stdlib Require Import ZArith String List Ascii Bool Lia.
From Stdlib Require Import PrimFloat SpecFloat FloatOps FloatAxioms DecimalString.
From stdpp Require Import base option gmap strings.

#[local] Set Warnings "-inexact-float".
#[local] Open Scope string_scope.
#[local] Open Scope Z_scope.

(** ** Python built-ins the module uses *)

Module Py.

(** The exceptions that can escape the module's functions. [ClientError]
    stands for whatever the routing client raises (network, HTTP status,
    API error). *)
Inductive exn : Type :=
| KeyError (key : string)
| IndexError
| ValueError
| OverflowError
| ClientError (msg : string).

Inductive outcome (A : Type) : Type :=
| Ok (a : A)
| Raise (e : exn).
Arguments Ok {A} a.
Arguments Raise {A} e.

(** [d[key]] on a document whose key may be absent. *)
Definition getitem {A : Type} (key : string) (field : option A) : outcome A :=
  match field with
  | Some v => Ok v
  | None => Raise (KeyError key)
  end.

(** [l[0]] on a list. *)
Definition getitem0 {A : Type} (l : list A) : outcome A :=
  match l with
  | x :: _ => Ok x
  | [] => Raise IndexError
  end.

(** [str(n)] for an [int]. *)
Definition str_of_int (z : Z) : string := NilZero.string_of_int (Z.to_int z).

(** [s.split(sep)] for a one-character separator. *)
Fixpoint split (sep : ascii) (s : string) : list string :=
  match s with
  | EmptyString => [EmptyString]
  | String c rest =>
      if Ascii.eqb c sep then EmptyString :: split sep rest
      else match split sep rest with
           | h :: t => String c h :: t
           | [] => [String c EmptyString]
           end
  end.

(** [s.split(sep, 1)]: at most one cut. *)
Fixpoint split1 (sep : ascii) (s : string) : list string :=
  match s with
  | EmptyString => [EmptyString]
  | String c rest =>
      if Ascii.eqb c sep then [EmptyString; rest]
      else match split1 sep rest with
           | h :: t => String c h :: t
           | [] => [String c EmptyString]
           end
  end.

(** [s.startswith(p)]. *)
Definition startswith (p s : string) : bool := String.prefix p s.

(** [sep.join(l)]. *)
Definition join (sep : string) (l : list string) : string := String.concat sep l.

(** [l[::-1]]. *)
Definition reversed {A : Type} (l : list A) : list A := rev l.

(** *** [round(x)] for a float: the nearest integer, ties to even *)

Definition round_half_even (m e : Z) : Z :=
  if 0 <=? e then m * 2 ^ e
  else
    let d := 2 ^ (- e) in
    let q := m / d in
    let r := m mod d in
    match Z.compare (2 * r) d with
    | Lt => q
    | Gt => q + 1
    | Eq => if Z.even q then q else q + 1
    end.

Definition round (x : float) : outcome Z :=
  match Prim2SF x with
  | S754_nan => Raise ValueError
  | S754_infinity _ => Raise OverflowError
  | S754_zero _ => Ok 0
  | S754_finite s m e =>
      let n := round_half_even (Z.pos m) e in
      Ok (if s then - n else n)
  end.

(** *** [str(x)] for a float: the shortest decimal string that reads back
    as [x], in the layout of [repr] *)

(** Comparison of the rationals [c * 10^k] and [v * 2^e]. *)
Definition cmp_scaled (c k v e : Z) : comparison :=
  (c * 10 ^ Z.max k 0 * 2 ^ Z.max (- e) 0
     ?= v * 2 ^ Z.max e 0 * 10 ^ Z.max (- k) 0).

(** The floor of [m * 2^e / 10^k]. *)
Definition floor_scaled (m e k : Z) : Z :=
  (m * 2 ^ Z.max e 0 * 10 ^ Z.max (- k) 0)
    / (2 ^ Z.max (- e) 0 * 10 ^ Z.max k 0).

Fixpoint decpt_from (fuel : nat) (m e p : Z) : Z :=
  match fuel with
  | O => p
  | S fuel' =>
      match cmp_scaled 1 p m e with
      | Gt => p
      | _ => decpt_from fuel' m e (p + 1)
      end
  end.

(** The [p] with [10^(p-1) <= m * 2^e < 10^p]. *)
Definition decpt_of (m e : Z) : Z :=
  decpt_from 8 m e ((e + Z.log2 m) * 30102 / 100000 - 2).

(** Does the decimal [c * 10^k] read back as the double [m * 2^e]?  The
    bounds are the midpoints to the neighbouring doubles (in units of
    [2^(e-2)]), attained when the mantissa is even. *)
Definition reads_back (m e c k : Z) : bool :=
  let lo := if (m =? 2 ^ 52) && (-1074 <? e) then 4 * m - 1 else 4 * m - 2 in
  let hi := 4 * m + 2 in
  let above := match cmp_scaled c k lo (e - 2) with
               | Gt => true | Eq => Z.even m | Lt => false end in
  let below := match cmp_scaled c k hi (e - 2) with
               | Lt => true | Eq => Z.even m | Gt => false end in
  above && below.

(** The [n]-digit decimal nearest to [m * 2^e] among those reading back. *)
Definition candidate (m e p n : Z) : option (Z * Z) :=
  let k := p - n in
  let dlo := floor_scaled m e k in
  let dhi := dlo + 1 in
  match reads_back m e dlo k, reads_back m e dhi k with
  | false, false => None
  | true, false => Some (dlo, k)
  | false, true => Some (dhi, k)
  | true, true =>
      match cmp_scaled (2 * dlo + 1) k (2 * m) e with
      | Gt => Some (dlo, k)
      | Lt => Some (dhi, k)
      | Eq => Some (if Z.even dlo then dlo else dhi, k)
      end
  end.

Fixpoint shortest_from (fuel : nat) (m e p n : Z) : Z * Z :=
  match fuel with
  | O => (floor_scaled m e (p - n), p - n)
  | S fuel' =>
      match candidate m e p n with
      | Some ck => ck
      | None => shortest_from fuel' m e p (n + 1)
      end
  end.

Fixpoint strip_zeros (fuel : nat) (c k : Z) : Z * Z :=
  match fuel with
  | O => (c, k)
  | S fuel' =>
      if (c mod 10 =? 0) && (0 <? c) then strip_zeros fuel' (c / 10) (k + 1)
      else (c, k)
  end.

Fixpoint zeros (n : nat) : string :=
  match n with
  | O => EmptyString
  | S n' => String "0" (zeros n')
  end.

(** The layout of [repr]: exponent form when the decimal point falls
    before the fourth leading zero or after the sixteenth digit. *)
Definition format_repr (digits : string) (decpt : Z) : string :=
  let n := Z.of_nat (String.length digits) in
  if (decpt <=? -4) || (16 <? decpt) then
    let ex := decpt - 1 in
    let mant := match digits with
                | String d (String d' rest) => String d (String "." (String d' rest))
                | _ => digits
                end in
    let exs := str_of_int (Z.abs ex) in
    let exs := if Z.abs ex <? 10 then String "0" exs else exs in
    mant ++ "e" ++ (if ex <? 0 then "-" else "+") ++ exs
  else if decpt <=? 0 then
    "0." ++ zeros (Z.to_nat (- decpt)) ++ digits
  else if decpt <? n then
    substring 0 (Z.to_nat decpt) digits ++ "." ++
    substring (Z.to_nat decpt) (Z.to_nat (n - decpt)) digits
  else
    digits ++ zeros (Z.to_nat (decpt - n)) ++ ".0".

Definition str_of_float (x : float) : string :=
  match Prim2SF x with
  | S754_nan => "nan"
  | S754_infinity s => if s then "-inf" else "inf"
  | S754_zero s => if s then "-0.0" else "0.0"
  | S754_finite s mp e =>
      let m := Z.pos mp in
      let '(c, k) := shortest_from 17 m e (decpt_of m e) 1 in
      let '(c, k) := strip_zeros 20 c k in
      let digits := str_of_int c in
      let decpt := k + Z.of_nat (String.length digits) in
      (if s then "-" else "") ++ format_repr digits decpt
  end.

(** The scalar values found in entity attributes and in the attribute
    dictionary the sensor exposes. *)
Inductive value : Type :=
| VNone
| VBool (b : bool)
| VInt (z : Z)
| VFloat (x : float)
| VStr (s : string).

(** [str(v)], which is also what ["{}".format(v)] renders. *)
Definition str (v : value) : string :=
  match v with
  | VNone => "None"
  | VBool b => if b then "True" else "False"
  | VInt z => str_of_int z
  | VFloat x => str_of_float x
  | VStr s => s
  end.

(** [isinstance(v, float)]. *)
Definition is_float (v : value) : bool :=
  match v with
  | VFloat _ => true
  | _ => false
  end.

(** [d.get(key)] for a dict of scalars: [None] when the key is absent. *)
Definition dict_get (d : gmap string value) (key : string) : value :=
  default VNone (d !! key).

Definition of_opt_str (o : option string) : value :=
  match o with Some s => VStr s | None => VNone end.

Definition of_opt_float (o : option float) : value :=
  match o with Some x => VFloat x | None => VNone end.

End Py.

Import Py.

(** The two monads of the embedding share stdpp's [x ← m; k] notation:
    [outcome] for code that only raises, and [M] further below for methods
    that also mutate [self] and talk to the routing service. *)
#[export] Instance outcome_ret : MRet outcome := λ A a, Ok a.
#[export] Instance outcome_bind : MBind outcome := λ A B f m,
  match m with
  | Ok a => f a
  | Raise e => Raise e
  end.

(** ** Constants of [homeassistant.const] and of the module *)

Definition ATTR_ATTRIBUTION : string := "attribution".
Definition ATTR_LATITUDE : string := "latitude".
Definition ATTR_LONGITUDE : string := "longitude".
Definition CONF_MODE : string := "mode".
Definition CONF_NAME : string := "name".
Definition CONF_UNIT_SYSTEM : string := "unit_system".
Definition CONF_UNIT_SYSTEM_IMPERIAL : string := "imperial".
Definition CONF_UNIT_SYSTEM_METRIC : string := "metric".

Definition CONF_DESTINATION_LATITUDE : string := "destination_latitude".
Definition CONF_DESTINATION_LONGITUDE : string := "destination_longitude".
Definition CONF_DESTINATION_ENTITY_ID : string := "destination_entity_id".
Definition CONF_ORIGIN_LATITUDE : string := "origin_latitude".
Definition CONF_ORIGIN_LONGITUDE : string := "origin_longitude".
Definition CONF_ORIGIN_ENTITY_ID : string := "origin_entity_id".
Definition CONF_API_KEY : string := "api_key".
Definition CONF_ROUTE_MODE : string := "route_mode".

Definition DEFAULT_NAME : string := "Openroute Service Travel Time".

Definition TRAVEL_MODE_BICYCLE : string := "cycling-regular".
Definition TRAVEL_MODE_CAR : string := "driving-car".
Definition TRAVEL_MODE_PEDESTRIAN : string := "foot-walking".
Definition TRAVEL_MODE : list string :=
  [TRAVEL_MODE_BICYCLE; TRAVEL_MODE_CAR; TRAVEL_MODE_PEDESTRIAN].

Definition ROUTE_MODE_FASTEST : string := "fastest".
Definition ROUTE_MODE_SHORTEST : string := "shortest".
Definition ROUTE_MODE : list string := [ROUTE_MODE_FASTEST; ROUTE_MODE_SHORTEST].

Definition ICON_BICYCLE : string := "mdi:bike".
Definition ICON_CAR : string := "mdi:car".
Definition ICON_PEDESTRIAN : string := "mdi:walk".

Definition UNITS : list string := [CONF_UNIT_SYSTEM_METRIC; CONF_UNIT_SYSTEM_IMPERIAL].

Definition ATTR_DURATION : string := "duration".
Definition ATTR_DISTANCE : string := "distance".
Definition ATTR_ROUTE : string := "route".
Definition ATTR_ORIGIN : string := "origin".
Definition ATTR_DESTINATION : string := "destination".
Definition ATTR_ORIGIN_NAME : string := "origin_name".
Definition ATTR_DESTINATION_NAME : string := "destination_name".

Definition UNIT_OF_MEASUREMENT : string := "min".

Definition TRACKABLE_DOMAINS : list string :=
  ["device_tracker"; "sensor"; "zone"; "person"].

(** [x in l] for a list of strings. *)
Definition str_in (x : string) (l : list string) : bool :=
  existsb (String.eqb x) l.

(** ** The routing service

    The documents [openrouteservice.Client] returns, as far as the module
    reads them. *)

Record Step := { step_name : option string }.
Record Segment := { seg_steps : option (list Step) }.
Record Summary := { sum_duration : option float; sum_distance : option float }.
Record Route := { rt_summary : option Summary; rt_segments : option (list Segment) }.
Record Metadata := { md_attribution : option string }.
Record DirectionsResponse :=
  { dr_routes : option (list Route); dr_metadata : option Metadata }.

Record Properties := { pr_label : option string }.
Record Feature := { ft_properties : option Properties }.
Record GeocodeResponse := { gr_features : option (list Feature) }.

(** A request sent to the service. *)
Inductive call : Type :=
| Directions (coords : list string * list string) (profile preference : string)
| PeliasReverse (point : list string).

(** The service as one update sees it: what each request returns or raises,
    given the requests already [sent] during that update. *)
Record Client := {
  directions :
    list call -> list string * list string -> string -> string ->
    outcome DirectionsResponse;
  pelias_reverse : list call -> list string -> outcome GeocodeResponse
}.

(** ** [class OpenRouteTravelTimeData] *)

Module OpenRouteTravelTimeData.

Record t := mk {
  origin : option string;
  destination : option string;
  travel_mode : string;
  route_mode : string;
  attribution : option string;
  duration : option float;
  distance : option float;
  route : option string;
  base_time : option float;
  origin_name : option string;
  destination_name : option string;
  units : string
}.

Definition __init__ (origin destination : option string)
    (travel_mode route_mode units : string) : t :=
  {| origin := origin;
     destination := destination;
     travel_mode := travel_mode;
     route_mode := route_mode;
     attribution := None;
     duration := None;
     distance := None;
     route := None;
     base_time := None;
     origin_name := None;
     destination_name := None;
     units := units |}.

(** Attribute assignment, [self.f = v]. *)
Definition with_origin (v : option string) (d : t) : t :=
  mk v (destination d) (travel_mode d) (route_mode d) (attribution d)
     (duration d) (distance d) (route d) (base_time d) (origin_name d)
     (destination_name d) (units d).
Definition with_destination (v : option string) (d : t) : t :=
  mk (origin d) v (travel_mode d) (route_mode d) (attribution d)
     (duration d) (distance d) (route d) (base_time d) (origin_name d)
     (destination_name d) (units d).
Definition with_attribution (v : option string) (d : t) : t :=
  mk (origin d) (destination d) (travel_mode d) (route_mode d) v
     (duration d) (distance d) (route d) (base_time d) (origin_name d)
     (destination_name d) (units d).
Definition with_duration (v : option float) (d : t) : t :=
  mk (origin d) (destination d) (travel_mode d) (route_mode d) (attribution d)
     v (distance d) (route d) (base_time d) (origin_name d)
     (destination_name d) (units d).
Definition with_distance (v : option float) (d : t) : t :=
  mk (origin d) (destination d) (travel_mode d) (route_mode d) (attribution d)
     (duration d) v (route d) (base_time d) (origin_name d)
     (destination_name d) (units d).
Definition with_route (v : option string) (d : t) : t :=
  mk (origin d) (destination d) (travel_mode d) (route_mode d) (attribution d)
     (duration d) (distance d) v (base_time d) (origin_name d)
     (destination_name d) (units d).
Definition with_origin_name (v : option string) (d : t) : t :=
  mk (origin d) (destination d) (travel_mode d) (route_mode d) (attribution d)
     (duration d) (distance d) (route d) (base_time d) v
     (destination_name d) (units d).
Definition with_destination_name (v : option string) (d : t) : t :=
  mk (origin d) (destination d) (travel_mode d) (route_mode d) (attribution d)
     (duration d) (distance d) (route d) (base_time d) (origin_name d)
     v (units d).

(** The loop of [_get_route_from_steps], with [road_names] as accumulator. *)
Fixpoint road_names_of (steps : list Step) (road_names : list string)
    : outcome (list string) :=
  match steps with
  | [] => Ok road_names
  | step :: steps' =>
      road_name ← getitem "name" (step_name step);
      if negb (String.eqb road_name "-") then
        (* Only add if it does not repeat *)
        if match road_names with [] => true | _ => false end
           || negb (String.eqb (List.last road_names "") road_name)
        then road_names_of steps' (road_names ++ [road_name])%list
        else road_names_of steps' road_names
      else road_names_of steps' road_names
  end.

(** Extract a Waze-like route from the maneuver instructions.  The names
    are strings, on which [map(str, _)] is the identity. *)
Definition _get_route_from_steps (steps : list Step) : outcome string :=
  road_names ← road_names_of steps [];
  mret (join "; " road_names).

(** The state a running method threads: the object and the requests sent
    so far.  An exception leaves both as they were when it was raised. *)
Record run := { self : t; sent : list call }.

Definition M (A : Type) : Type := run -> outcome A * run.

#[export] Instance M_ret : MRet M := λ A a s, (Ok a, s).
#[export] Instance M_bind : MBind M := λ A B f m s,
  match m s with
  | (Ok a, s') => f a s'
  | (Raise e, s') => (Raise e, s')
  end.

Definition lift {A : Type} (o : outcome A) : M A := λ s, (o, s).

Definition assign (f : t -> t) : M unit :=
  λ s, (Ok tt, {| self := f (self s); sent := sent s |}).

Definition request {A : Type} (c : call) (answer : list call -> outcome A) : M A :=
  λ s, (answer (sent s), {| self := self s; sent := (sent s ++ [c])%list |}).

Definition client_directions (client : Client)
    (coords : list string * list string) (profile preference : string)
    : M DirectionsResponse :=
  request (Directions coords profile preference)
          (λ sent, directions client sent coords profile preference).

Definition client_pelias_reverse (client : Client) (point : list string)
    : M GeocodeResponse :=
  request (PeliasReverse point) (λ sent, pelias_reverse client sent point).

(** [features[0]["properties"]["label"]]. *)
Definition label_of (response : GeocodeResponse) : outcome string :=
  features ← getitem "features" (gr_features response);
  feature ← getitem0 features;
  properties ← getitem "properties" (ft_properties feature);
  getitem "label" (pr_label properties).

Definition update_body (client : Client) (d : t) : M unit :=
  match destination d, origin d with
  | Some dest, Some orig =>
      let coords := (reversed (split "," dest), reversed (split "," orig)) in
      directions_response ←
        client_directions client coords (travel_mode d) (route_mode d);
      routes ← lift (getitem "routes" (dr_routes directions_response));
      route0 ← lift (getitem0 routes);
      summary ← lift (getitem "summary" (rt_summary route0));
      segments ← lift (getitem "segments" (rt_segments route0));
      segment0 ← lift (getitem0 segments);
      steps ← lift (getitem "steps" (seg_steps segment0));
      metadata ← lift (getitem "metadata" (dr_metadata directions_response));
      attribution ← lift (getitem "attribution" (md_attribution metadata));
      assign (with_attribution (Some attribution));;
      duration ← lift (getitem "duration" (sum_duration summary));
      assign (with_duration (Some duration));;
      distance ← lift (getitem "distance" (sum_distance summary));
      (if String.eqb (units d) CONF_UNIT_SYSTEM_IMPERIAL
       then (* Convert to miles. *)
            assign (with_distance (Some (distance / 1609.344)%float))
       else (* Convert to kilometers *)
            assign (with_distance (Some (distance / 1000)%float)));;
      route ← lift (_get_route_from_steps steps);
      assign (with_route (Some route));;
      let reverse_geocode_destination := reversed (split "," dest) in
      reverse_destination_response ←
        client_pelias_reverse client reverse_geocode_destination;
      let reverse_geocode_origin := reversed (split "," orig) in
      reverse_origin_response ←
        client_pelias_reverse client reverse_geocode_origin;
      origin_name ← lift (label_of reverse_origin_response);
      assign (with_origin_name (Some origin_name));;
      destination_name ← lift (label_of reverse_destination_response);
      assign (with_destination_name (Some destination_name))
  | _, _ => mret tt
  end.

(** [update(self)]: the outcome, the object afterwards and the requests
    sent, in order. *)
Definition update (client : Client) (d : t) : outcome unit * t * list call :=
  let '(r, s) := update_body client d {| self := d; sent := [] |} in
  (r, self s, sent s).

End OpenRouteTravelTimeData.

(** ** The host: entity states

    [homeassistant.core.State] and the part of [hass] the sensor reads,
    [hass.states.get]. *)

Module State.
Record t := {
  entity_id : string;
  state : string;
  attributes : gmap string value
}.
End State.

Record HomeAssistant := { states_get : string -> option State.t }.

(** Modelled from the spec: [homeassistant.helpers.location.has_location],
    which is not part of this repository, tells whether a state "carries
    coordinate attributes": the state exists and its latitude and longitude
    attributes are both floats. *)
Definition has_location (st : option State.t) : bool :=
  match st with
  | Some s =>
      is_float (dict_get (State.attributes s) ATTR_LATITUDE)
      && is_float (dict_get (State.attributes s) ATTR_LONGITUDE)
  | None => false
  end.

(** ** [class OpenRouteTravelTimeSensor] *)

Module OpenRouteTravelTimeSensor.

Record t := mk {
  _name : string;
  _open_route_data : OpenRouteTravelTimeData.t;
  _unit_of_measurement : string;
  _origin_entity_id : option string;
  _destination_entity_id : option string
}.

Definition with_data (d : OpenRouteTravelTimeData.t) (s : t) : t :=
  mk (_name s) d (_unit_of_measurement s) (_origin_entity_id s)
     (_destination_entity_id s).

(** [location.split(".", 1)[0] in TRACKABLE_DOMAINS]. *)
Definition is_trackable (location : string) : bool :=
  str_in (List.hd "" (split1 "." location)) TRACKABLE_DOMAINS.

Definition __init__ (name origin destination : string)
    (open_route_data : OpenRouteTravelTimeData.t) : t :=
  let data := open_route_data in
  (* Check if location is a trackable entity *)
  let '(origin_entity_id, data) :=
    if is_trackable origin then (Some origin, data)
    else (None, OpenRouteTravelTimeData.with_origin (Some origin) data) in
  let '(destination_entity_id, data) :=
    if is_trackable destination then (Some destination, data)
    else (None, OpenRouteTravelTimeData.with_destination (Some destination) data) in
  {| _name := name;
     _open_route_data := data;
     _unit_of_measurement := UNIT_OF_MEASUREMENT;
     _origin_entity_id := origin_entity_id;
     _destination_entity_id := destination_entity_id |}.

(** The [state] property. *)
Definition state (s : t) : outcome (option string) :=
  match OpenRouteTravelTimeData.duration (_open_route_data s) with
  | Some duration =>
      minutes ← round (duration / 60)%float;
      mret (Some (str_of_int minutes))
  | None => mret None
  end.

Definition name (s : t) : string := _name s.

(** The [device_state_attributes] property. *)
Definition device_state_attributes (s : t) : option (gmap string value) :=
  let data := _open_route_data s in
  match OpenRouteTravelTimeData.duration data with
  | None => None
  | Some duration =>
      let res : gmap string value := ∅ in
      let res := <[ATTR_ATTRIBUTION :=
                     of_opt_str (OpenRouteTravelTimeData.attribution data)]> res in
      let res := <[ATTR_DURATION := VFloat (duration / 60)%float]> res in
      let res := <[ATTR_DISTANCE :=
                     of_opt_float (OpenRouteTravelTimeData.distance data)]> res in
      let res := <[ATTR_ROUTE :=
                     of_opt_str (OpenRouteTravelTimeData.route data)]> res in
      let res := <[CONF_UNIT_SYSTEM :=
                     VStr (OpenRouteTravelTimeData.units data)]> res in
      let res := <[ATTR_ORIGIN :=
                     of_opt_str (OpenRouteTravelTimeData.origin data)]> res in
      let res := <[ATTR_DESTINATION :=
                     of_opt_str (OpenRouteTravelTimeData.destination data)]> res in
      let res := <[ATTR_ORIGIN_NAME :=
                     of_opt_str (OpenRouteTravelTimeData.origin_name data)]> res in
      let res := <[ATTR_DESTINATION_NAME :=
                     of_opt_str (OpenRouteTravelTimeData.destination_name data)]> res in
      let res := <[CONF_MODE :=
                     VStr (OpenRouteTravelTimeData.travel_mode data)]> res in
      let res := <[CONF_ROUTE_MODE :=
                     VStr (OpenRouteTravelTimeData.route_mode data)]> res in
      Some res
  end.

Definition unit_of_measurement (s : t) : string := _unit_of_measurement s.

(** Icon to use in the frontend depending on travel_mode. *)
Definition icon (s : t) : string :=
  let mode := OpenRouteTravelTimeData.travel_mode (_open_route_data s) in
  if String.eqb mode TRAVEL_MODE_BICYCLE then ICON_BICYCLE
  else if String.eqb mode TRAVEL_MODE_PEDESTRIAN then ICON_PEDESTRIAN
  else ICON_CAR.

(** Get the lat/long string from an entity's attributes. *)
Definition _get_location_from_attributes (entity : State.t) : string :=
  let attr := State.attributes entity in
  str (dict_get attr ATTR_LATITUDE) ++ "," ++ str (dict_get attr ATTR_LONGITUDE).

(** Get the location from the entity state or attributes.  A Python
    function that reaches its end returns [None]. *)
Definition _get_location_from_entity (hass : HomeAssistant) (entity_id : string)
    : option string :=
  match states_get hass entity_id with
  | None => None
  | Some entity =>
      (* Check if the entity has location attributes *)
      if has_location (Some entity) then
        Some (_get_location_from_attributes entity)
      else
        (* Check if device is in a zone *)
        let zone_entity := states_get hass ("zone." ++ State.state entity) in
        match (if has_location zone_entity then zone_entity else None) with
        | Some zone => Some (_get_location_from_attributes zone)
        | None =>
            (* If zone was not found in state then use the state as the location *)
            if startswith "sensor." entity_id then Some (State.state entity)
            else None
        end
  end.

(** [async_update]: resolve the entity references into the data object,
    then run its [update]. *)
Definition async_update (hass : HomeAssistant) (client : Client) (s : t)
    : outcome unit * t * list call :=
  let data := _open_route_data s in
  let data :=
    match _origin_entity_id s with
    | Some origin_entity_id =>
        OpenRouteTravelTimeData.with_origin
          (_get_location_from_entity hass origin_entity_id) data
    | None => data
    end in
  let data :=
    match _destination_entity_id s with
    | Some destination_entity_id =>
        OpenRouteTravelTimeData.with_destination
          (_get_location_from_entity hass destination_entity_id) data
    | None => data
    end in
  let '(r, data, calls) := OpenRouteTravelTimeData.update client data in
  (r, with_data data s, calls).

End OpenRouteTravelTimeSensor.

(** ** The configuration schema

    [voluptuous], a library the module imports, as far as [PLATFORM_SCHEMA]
    uses it: markers, the dictionary that holds them, and the validation of
    a configuration against it.  A schema dictionary maps markers to
    validators; a validator returns the validated value or fails ([None]
    here, [vol.Invalid] there). *)

Module vol.

Definition validator : Type := value -> option value.

Inductive marker : Type :=
| Required (schema : string)
| Optional (schema : string) (default : option value)
| Inclusive (schema group_of_inclusion : string)
| Exclusive (schema group_of_exclusion : string).

Definition schema_of (m : marker) : string :=
  match m with
  | Required k | Optional k _ | Inclusive k _ | Exclusive k _ => k
  end.

(** [Marker.__eq__] and [Marker.__hash__] look at the wrapped key only:
    two markers of one key are one dictionary key, whatever their kinds. *)
Definition marker_eqb (a b : marker) : bool :=
  String.eqb (schema_of a) (schema_of b).

(** A Python [dict] keyed by markers, in insertion order. *)
Definition dict : Type := list (marker * validator).

(** [d[k] = v]: an equal key already there keeps its place and its key
    object and takes the new value. *)
Fixpoint setitem (k : marker) (v : validator) (d : dict) : dict :=
  match d with
  | [] => [(k, v)]
  | (k', v') :: d' =>
      if marker_eqb k' k then (k', v) :: d'
      else (k', v') :: setitem k v d'
  end.

(** [del d[k]]. *)
Definition delitem (k : marker) (d : dict) : dict :=
  List.filter (λ kv, negb (marker_eqb (fst kv) k)) d.

(** The dictionary display [{k1: v1, k2: v2, ...}]: the items are stored
    from left to right. *)
Definition display (items : list (marker * validator)) : dict :=
  fold_left (λ d kv, setitem (fst kv) (snd kv) d) items [].

(** [Schema.extend]: an item whose key the schema has replaces it (marker
    included), any other is added. *)
Definition extend (base extension : dict) : dict :=
  fold_left (λ d kv, (delitem (fst kv) d ++ [kv])%list) extension base.

(** [o is not None], as a boolean. *)
Definition is_some {A : Type} (o : option A) : bool :=
  match o with Some _ => true | None => false end.

(** [k in data]. *)
Definition contains (data : gmap string value) (k : string) : bool :=
  is_some (data !! k).

Definition exclusion_label (m : marker) : option string :=
  match m with Exclusive _ g => Some g | _ => None end.
Definition inclusion_label (m : marker) : option string :=
  match m with Inclusive _ g => Some g | _ => None end.

(** The keys of the markers carrying [label], in schema order. *)
Definition group (label_of : marker -> option string) (label : string)
    (schema : dict) : list string :=
  List.map (λ kv, schema_of (fst kv))
    (List.filter (λ kv, match label_of (fst kv) with
                        | Some g => String.eqb g label
                        | None => false
                        end) schema).

Definition labels (label_of : marker -> option string) (schema : dict)
    : list string :=
  omap (λ kv, label_of (fst kv)) schema.

(** A second key of one group of exclusion found in the data. *)
Fixpoint two_exclusive (keys : list string) (data : gmap string value)
    (exists_ : bool) : bool :=
  match keys with
  | [] => false
  | k :: keys' =>
      if contains data k then
        if exists_ then true else two_exclusive keys' data true
      else two_exclusive keys' data exists_
  end.

(** Some but not all keys of one group of inclusion found in the data. *)
Definition some_not_all (keys : list string) (data : gmap string value) : bool :=
  let included := List.map (contains data) keys in
  existsb (λ b, b) included && negb (forallb (λ b, b) included).

Definition lookup_key (schema : dict) (k : string) : option (marker * validator) :=
  List.find (λ kv, String.eqb (schema_of (fst kv)) k) schema.

(** Defaults of absent optional keys are filled in before validation. *)
Definition with_defaults (schema : dict) (data : gmap string value)
    : gmap string value :=
  fold_left (λ out kv, match fst kv with
                       | Optional k (Some v) =>
                           if contains out k then out else <[k := v]> out
                       | _ => out
                       end) schema data.

Definition is_required (m : marker) : bool :=
  match m with Required _ => true | _ => false end.

(** The validator of a data key: that of its schema key; a key outside
    the schema is an extra key, which is not allowed. *)
Definition check (schema : dict) (k : string) (v : value) : option value :=
  match lookup_key schema k with
  | Some (_, validate) => validate v
  | None => None
  end.

Definition values_pass (schema : dict) (data : gmap string value) : bool :=
  forallb (λ kv, is_some (check schema (fst kv) (snd kv))) (map_to_list data).

Definition required_present (schema : dict) (data : gmap string value) : bool :=
  forallb (λ kv, negb (is_required (fst kv)) || contains data (schema_of (fst kv)))
          schema.

(** The mapping itself: no key outside the schema, every value passes the
    validator of its key, every [Required] key is there. *)
Definition validate_mapping (schema : dict) (data : gmap string value)
    : option (gmap string value) :=
  let data := with_defaults schema data in
  if values_pass schema data && required_present schema data
  then Some (map_imap (check schema) data)
  else None.

(** A second key of some group of exclusion is in the data. *)
Definition exclusion_broken (schema : dict) (data : gmap string value) : bool :=
  existsb (λ label, two_exclusive (group exclusion_label label schema) data false)
          (labels exclusion_label schema).

(** Some but not all keys of some group of inclusion are in the data. *)
Definition inclusion_broken (schema : dict) (data : gmap string value) : bool :=
  existsb (λ label, some_not_all (group inclusion_label label schema) data)
          (labels inclusion_label schema).

(** Validation against a dictionary schema: groups of exclusion, groups
    of inclusion, then the mapping. *)
Definition validate_dict (schema : dict) (data : gmap string value)
    : option (gmap string value) :=
  if exclusion_broken schema data then None
  else if inclusion_broken schema data then None
  else validate_mapping schema data.

(** [vol.In(container)] for a list of strings. *)
Definition In (container : list string) : validator :=
  λ v, match v with
       | VStr s => if str_in s container then Some v else None
       | _ => None
       end.

End vol.

(** [homeassistant.helpers.config_validation], which is not part of this
    repository: the value validators are parameters of the schema. *)
Record config_validation := {
  cv_latitude : vol.validator;
  cv_longitude : vol.validator;
  cv_entity_id : vol.validator;
  cv_string : vol.validator;
  cv_time_period : vol.validator
}.

(** [cv.has_at_least_one_key] of a list of [keys]: some key of the configuration is one
    of [keys]. *)
Definition has_at_least_one_key (keys : list string) (obj : gmap string value)
    : option (gmap string value) :=
  if existsb (vol.contains obj) keys then Some obj else None.

Section Schema.

Variable cv : config_validation.

(** The platform schema of [homeassistant.components.sensor] that the
    module extends. *)
Definition SENSOR_PLATFORM_SCHEMA : vol.dict :=
  vol.display
    [ (vol.Required "platform", cv_string cv);
      (vol.Optional "entity_namespace" None, cv_string cv);
      (vol.Optional "scan_interval" None, cv_time_period cv) ].

Definition PLATFORM_SCHEMA_DICT : vol.dict :=
  vol.extend SENSOR_PLATFORM_SCHEMA
    (vol.display
       [ (vol.Required CONF_API_KEY, cv_string cv);
         (vol.Inclusive CONF_DESTINATION_LATITUDE "destination_coordinates",
          cv_latitude cv);
         (vol.Inclusive CONF_DESTINATION_LONGITUDE "destination_coordinates",
          cv_longitude cv);
         (vol.Exclusive CONF_DESTINATION_LATITUDE "destination", cv_latitude cv);
         (vol.Exclusive CONF_DESTINATION_ENTITY_ID "destination", cv_entity_id cv);
         (vol.Inclusive CONF_ORIGIN_LATITUDE "origin_coordinates", cv_latitude cv);
         (vol.Inclusive CONF_ORIGIN_LONGITUDE "origin_coordinates", cv_longitude cv);
         (vol.Exclusive CONF_ORIGIN_LATITUDE "origin", cv_latitude cv);
         (vol.Exclusive CONF_ORIGIN_ENTITY_ID "origin", cv_entity_id cv);
         (vol.Optional CONF_NAME (Some (VStr DEFAULT_NAME)), cv_string cv);
         (vol.Optional CONF_MODE (Some (VStr TRAVEL_MODE_CAR)), vol.In TRAVEL_MODE);
         (vol.Optional CONF_ROUTE_MODE (Some (VStr ROUTE_MODE_FASTEST)),
          vol.In ROUTE_MODE);
         (vol.Optional CONF_UNIT_SYSTEM None, vol.In UNITS) ]).

(** [PLATFORM_SCHEMA = vol.All(...)]: the three validators in turn. *)
Definition PLATFORM_SCHEMA (config : gmap string value)
    : option (gmap string value) :=
  config ← has_at_least_one_key
             [CONF_DESTINATION_LATITUDE; CONF_DESTINATION_ENTITY_ID] config;
  config ← has_at_least_one_key
             [CONF_ORIGIN_LATITUDE; CONF_ORIGIN_ENTITY_ID] config;
  vol.validate_dict PLATFORM_SCHEMA_DICT config.

End Schema.

(** ** Notions the properties are stated with *)

(** A step list given by its road names. *)
Definition steps_named (names : list string) : list Step :=
  List.map (λ n, {| step_name := Some n |}) names.

(** The route summary in the words of the specification: drop the "no
    name" marker, then keep a name only if it differs from the name kept
    just before it, and join with ["; "]. *)
Definition is_road_name (n : string) : bool := negb (String.eqb n "-").

Fixpoint collapse (previous : option string) (names : list string) : list string :=
  match names with
  | [] => []
  | n :: names' =>
      if match previous with Some p => String.eqb p n | None => false end
      then collapse previous names'
      else n :: collapse (Some n) names'
  end.

Definition route_summary (names : list string) : string :=
  join "; " (collapse None (List.filter is_road_name names)).

(** The last element of a list, if any. *)
Definition last_name (l : list string) : option string :=
  match l with
  | [] => None
  | _ => Some (List.last l "")
  end.

(** [c] occurs in [s]. *)
Fixpoint has_char (c : ascii) (s : string) : bool :=
  match s with
  | EmptyString => false
  | String c' s' => Ascii.eqb c' c || has_char c s'
  end.


(** The summary the module reads off a directions response,
    [routes[0]["summary"]]. *)
Definition first_summary (response : DirectionsResponse) : option Summary :=
  match dr_routes response with
  | Some (route0 :: _) => rt_summary route0
  | _ => None
  end.

(** The attribution and the step list the module reads off a directions
    response, [metadata.attribution] and [routes[0].segments[0].steps]. *)
Definition response_attribution (response : DirectionsResponse) : option string :=
  match dr_metadata response with
  | Some metadata => md_attribution metadata
  | None => None
  end.

Definition first_steps (response : DirectionsResponse) : option (list Step) :=
  match dr_routes response with
  | Some (route0 :: _) =>
      match rt_segments route0 with
      | Some (segment0 :: _) => seg_steps segment0
      | _ => None
      end
  | _ => None
  end.

(** The coordinate pair of the directions request: destination first, each
    endpoint as longitude then latitude. *)
Definition coords_of (dest orig : string) : list string * list string :=
  (reversed (split "," dest), reversed (split "," orig)).

(** The directions request an update sends. *)
Definition directions_call (d : OpenRouteTravelTimeData.t) (dest orig : string) : call :=
  Directions (coords_of dest orig) (OpenRouteTravelTimeData.travel_mode d)
             (OpenRouteTravelTimeData.route_mode d).

(** The object after the four assignments that follow the directions
    request. *)
Definition with_directions_result (attribution : string) (duration distance : float)
    (route : string) (d : OpenRouteTravelTimeData.t) : OpenRouteTravelTimeData.t :=
  OpenRouteTravelTimeData.with_route (Some route)
    (OpenRouteTravelTimeData.with_distance
       (Some (if String.eqb (OpenRouteTravelTimeData.units d) CONF_UNIT_SYSTEM_IMPERIAL
              then distance / 1609.344 else distance / 1000)%float)
       (OpenRouteTravelTimeData.with_duration (Some duration)
          (OpenRouteTravelTimeData.with_attribution (Some attribution) d))).

(** The sensor [async_setup_platform] builds from the configured values:
    a data object with origin and destination unset, wrapped by the entity. *)
Definition new_sensor (name origin destination travel_mode route_mode units : string)
    : OpenRouteTravelTimeSensor.t :=
  OpenRouteTravelTimeSensor.__init__ name origin destination
    (OpenRouteTravelTimeData.__init__ None None travel_mode route_mode units).

(** The states a sensor goes through: the host polls [async_update] again
    and again, whatever the entity states and the service's answers are, and
    whether or not the previous poll raised. *)
Inductive reachable : OpenRouteTravelTimeSensor.t -> Prop :=
| reachable_new (name origin destination travel_mode route_mode units : string) :
    reachable (new_sensor name origin destination travel_mode route_mode units)
| reachable_update (hass : HomeAssistant) (client : Client)
    (s s' : OpenRouteTravelTimeSensor.t) (r : outcome unit) (calls : list call) :
    reachable s ->
    OpenRouteTravelTimeSensor.async_update hass client s = (r, s', calls) ->
    reachable s'.

(** Every field of the travel result is populated. *)
Definition populated (d : OpenRouteTravelTimeData.t) : Prop :=
  is_Some (OpenRouteTravelTimeData.attribution d)
  /\ is_Some (OpenRouteTravelTimeData.duration d)
  /\ is_Some (OpenRouteTravelTimeData.distance d)
  /\ is_Some (OpenRouteTravelTimeData.route d)
  /\ is_Some (OpenRouteTravelTimeData.origin_name d)
  /\ is_Some (OpenRouteTravelTimeData.destination_name d).

(** The value of the [state] property for a stored duration. *)
Definition minutes_of (duration : float) : outcome (option string) :=
  minutes ← round (duration / 60)%float;
  mret (Some (str_of_int minutes)).

(** The data object a poll updates: the sensor's, after the entity
    references have been resolved into origin and destination. *)
Definition resolved_data (hass : HomeAssistant) (s : OpenRouteTravelTimeSensor.t)
    : OpenRouteTravelTimeData.t :=
  let data := OpenRouteTravelTimeSensor._open_route_data s in
  let data :=
    match OpenRouteTravelTimeSensor._origin_entity_id s with
    | Some id =>
        OpenRouteTravelTimeData.with_origin
          (OpenRouteTravelTimeSensor._get_location_from_entity hass id) data
    | None => data
    end in
  match OpenRouteTravelTimeSensor._destination_entity_id s with
  | Some id =>
      OpenRouteTravelTimeData.with_destination
        (OpenRouteTravelTimeSensor._get_location_from_entity hass id) data
  | None => data
  end.

(** The duration the directions request of an update of [d] brings back, if
    the request is sent, answered, and the answer has a duration. *)
Definition fetched_duration (client : Client) (d : OpenRouteTravelTimeData.t)
    : option float :=
  match OpenRouteTravelTimeData.destination d, OpenRouteTravelTimeData.origin d with
  | Some dest, Some orig =>
      match directions client [] (coords_of dest orig)
              (OpenRouteTravelTimeData.travel_mode d)
              (OpenRouteTravelTimeData.route_mode d) with
      | Ok response =>
          match first_summary response with
          | Some summary => sum_duration summary
          | None => None
          end
      | Raise _ => None
      end
  | _, _ => None
  end.

(** The sensors to which no directions request has brought a duration
    back: new, or polled only with updates whose directions request was not
    sent, raised, or was answered without a duration.  This is the code's
    condition for a state of [None]; the specification's, which is wider,
    is [no_successful_fetch] below. *)
Inductive never_fetched : OpenRouteTravelTimeSensor.t -> Prop :=
| never_fetched_new (name origin destination travel_mode route_mode units : string) :
    never_fetched (new_sensor name origin destination travel_mode route_mode units)
| never_fetched_poll (hass : HomeAssistant) (client : Client)
    (s s' : OpenRouteTravelTimeSensor.t) (r : outcome unit) (calls : list call) :
    never_fetched s ->
    OpenRouteTravelTimeSensor.async_update hass client s = (r, s', calls) ->
    fetched_duration client (resolved_data hass s) = None ->
    never_fetched s'.

(** Modelled from the spec: "no successful fetch has occurred yet".  A
    successful fetch is an update that sends its requests and returns; the
    sensors without one are the new ones and those polled only with updates
    that raised or sent no request. *)
Inductive no_successful_fetch : OpenRouteTravelTimeSensor.t -> Prop :=
| no_successful_fetch_new (name origin destination travel_mode route_mode units : string) :
    no_successful_fetch (new_sensor name origin destination travel_mode route_mode units)
| no_successful_fetch_poll (hass : HomeAssistant) (client : Client)
    (s s' : OpenRouteTravelTimeSensor.t) (r : outcome unit) (calls : list call) :
    no_successful_fetch s ->
    OpenRouteTravelTimeSensor.async_update hass client s = (r, s', calls) ->
    (r = Ok tt -> calls = []) ->
    no_successful_fetch s'.

(** The six fields of the travel result are the same in [d] and [d']. *)
Definition same_result (d d' : OpenRouteTravelTimeData.t) : Prop :=
  OpenRouteTravelTimeData.attribution d' = OpenRouteTravelTimeData.attribution d
  /\ OpenRouteTravelTimeData.duration d' = OpenRouteTravelTimeData.duration d
  /\ OpenRouteTravelTimeData.distance d' = OpenRouteTravelTimeData.distance d
  /\ OpenRouteTravelTimeData.route d' = OpenRouteTravelTimeData.route d
  /\ OpenRouteTravelTimeData.origin_name d' = OpenRouteTravelTimeData.origin_name d
  /\ OpenRouteTravelTimeData.destination_name d'
     = OpenRouteTravelTimeData.destination_name d.

(** ** Sample values for the concrete runs below *)

Definition sample_directions : DirectionsResponse :=
  {| dr_routes :=
       Some [ {| rt_summary :=
                   Some {| sum_duration := Some 1234.5%float;
                           sum_distance := Some 16093.44%float |};
                 rt_segments :=
                   Some [ {| seg_steps :=
                               Some (steps_named ["-"; "Main St"; "Oak Ave"]) |} ] |} ];
     dr_metadata := Some {| md_attribution := Some "openrouteservice.org" |} |}.

Definition sample_geocode (label : string) : GeocodeResponse :=
  {| gr_features := Some [ {| ft_properties := Some {| pr_label := Some label |} |} ] |}.

(** A service that answers every request. *)
Definition service_up : Client :=
  {| directions := λ _ _ _ _, Ok sample_directions;
     pelias_reverse := λ _ point, Ok (sample_geocode (join " " point)) |}.

(** A service whose directions endpoint answers and whose reverse geocoder
    times out. *)
Definition geocoder_down : Client :=
  {| directions := λ _ _ _ _, Ok sample_directions;
     pelias_reverse := λ _ _, Raise (ClientError "timeout") |}.

(** A service that is unreachable. *)
Definition service_down : Client :=
  {| directions := λ _ _ _ _, Raise (ClientError "timeout");
     pelias_reverse := λ _ _, Raise (ClientError "timeout") |}.

Definition sample_data (units : string) : OpenRouteTravelTimeData.t :=
  OpenRouteTravelTimeData.with_destination (Some "48.1,11.5")
    (OpenRouteTravelTimeData.with_origin (Some "52.5,13.4")
       (OpenRouteTravelTimeData.__init__ None None TRAVEL_MODE_CAR
          ROUTE_MODE_FASTEST units)).

(** A host without entities. *)
Definition no_entities : HomeAssistant := {| states_get := λ _, None |}.

(** A sensor configured with two coordinate pairs. *)
Definition sample_sensor : OpenRouteTravelTimeSensor.t :=
  new_sensor "Commute" "52.5,13.4" "48.1,11.5" TRAVEL_MODE_CAR ROUTE_MODE_FASTEST
    CONF_UNIT_SYSTEM_IMPERIAL.

(** A phone tracked with its own coordinates while in the zone "work",
    the zone, and a host that knows both. *)
Definition phone : State.t :=
  {| State.entity_id := "device_tracker.phone";
     State.state := "work";
     State.attributes :=
       <[ATTR_LATITUDE := VFloat 52.5]> (<[ATTR_LONGITUDE := VFloat 13.4]> ∅) |}.

Definition zone_work : State.t :=
  {| State.entity_id := "zone.work";
     State.state := "zoning";
     State.attributes :=
       <[ATTR_LATITUDE := VFloat 48.1]> (<[ATTR_LONGITUDE := VFloat 11.5]> ∅) |}.

(** A person known only by the zone they are in. *)
Definition person_at_work : State.t :=
  {| State.entity_id := "person.ada";
     State.state := "work";
     State.attributes := ∅ |}.

Definition sample_hass : HomeAssistant :=
  {| states_get := λ entity_id,
       if String.eqb entity_id "device_tracker.phone" then Some phone
       else if String.eqb entity_id "person.ada" then Some person_at_work
       else if String.eqb entity_id "zone.work" then Some zone_work
       else None |}.

(** A sensor from the tracked phone to a fixed destination. *)
Definition tracking_sensor : OpenRouteTravelTimeSensor.t :=
  new_sensor "Way home" "device_tracker.phone" "48.1,11.5" TRAVEL_MODE_CAR
    ROUTE_MODE_FASTEST CONF_UNIT_SYSTEM_METRIC.

(** A platform configuration that gives the origin both as coordinates
    and as an entity. *)
Definition config_with_both : gmap string value :=
  <["platform" := VStr "open_route_service"]>
    (<[CONF_API_KEY := VStr "key"]>
       (<[CONF_ORIGIN_LATITUDE := VFloat 52.5]>
          (<[CONF_ORIGIN_LONGITUDE := VFloat 13.4]>
             (<[CONF_ORIGIN_ENTITY_ID := VStr "device_tracker.phone"]>
                (<[CONF_DESTINATION_ENTITY_ID := VStr "zone.work"]> ∅))))).

(** Validators that let every value through. *)
Definition cv_permissive : config_validation :=
  {| cv_latitude := Some;
     cv_longitude := Some;
     cv_entity_id := Some;
     cv_string := Some;
     cv_time_period := Some |}.

(** ** Further notions *)

(** No two neighbours of the list are equal. *)
Fixpoint adjacent_distinct (l : list string) : Prop :=
  match l with
  | a :: (b :: _) as l' => a <> b /\ adjacent_distinct l'
  | _ => True
  end.

(** A step without the "name" key. *)
Definition nameless (step : Step) : bool :=
  match step_name step with
  | Some _ => false
  | None => true
  end.

(** The outcome, the object and the requests of an update, one by one. *)
Definition update_outcome (client : Client) (d : OpenRouteTravelTimeData.t)
    : outcome unit :=
  fst (fst (OpenRouteTravelTimeData.update client d)).

Definition updated (client : Client) (d : OpenRouteTravelTimeData.t)
    : OpenRouteTravelTimeData.t :=
  snd (fst (OpenRouteTravelTimeData.update client d)).

Definition update_calls (client : Client) (d : OpenRouteTravelTimeData.t)
    : list call :=
  snd (OpenRouteTravelTimeData.update client d).

(** A directions response from which the code cannot read all of
    attribution, summary and step list. *)
Definition malformed (response : DirectionsResponse) : Prop :=
  first_summary response = None
  \/ first_steps response = None
  \/ response_attribution response = None.

(** A service whose directions endpoint answers with no route. *)
Definition service_without_routes : Client :=
  {| directions := λ _ _ _ _,
       Ok {| dr_routes := Some [];
             dr_metadata := Some {| md_attribution := Some "openrouteservice.org" |} |};
     pelias_reverse := λ _ point, Ok (sample_geocode (join " " point)) |}.

(** Every character of [s] satisfies [P]. *)
Fixpoint all_chars (P : ascii -> bool) (s : string) : bool :=
  match s with
  | EmptyString => true
  | String c s' => P c && all_chars P s'
  end.

(** The characters [str] renders a float with: digits, sign, point,
    exponent mark and the letters of [inf] and [nan]. *)
Definition numeral_char (c : ascii) : bool := has_char c "0123456789-+.einfa".

(** The characters of a ["lat,lon"] string. *)
Definition coordinate_char (c : ascii) : bool := numeral_char c || Ascii.eqb c ",".

(** The sensors a sensor [s0] becomes under polling. *)
Inductive polled (s0 : OpenRouteTravelTimeSensor.t) : OpenRouteTravelTimeSensor.t -> Prop :=
| polled_start : polled s0 s0
| polled_update (hass : HomeAssistant) (client : Client)
    (s s' : OpenRouteTravelTimeSensor.t) (r : outcome unit) (calls : list call) :
    polled s0 s ->
    OpenRouteTravelTimeSensor.async_update hass client s = (r, s', calls) ->
    polled s0 s'.

(** A tracker that is away: no coordinates, and a state that names no zone. *)
Definition phone_away : State.t :=
  {| State.entity_id := "device_tracker.phone";
     State.state := "not_home";
     State.attributes := ∅ |}.

(** A sensor entity whose state is an address. *)
Definition address_sensor : State.t :=
  {| State.entity_id := "sensor.next_appointment";
     State.state := "48.1,11.5";
     State.attributes := ∅ |}.

Definition away_hass : HomeAssistant :=
  {| states_get := λ entity_id,
       if String.eqb entity_id "device_tracker.phone" then Some phone_away
       else if String.eqb entity_id "sensor.next_appointment" then Some address_sensor
       else None |}.

(** ** [async_setup_platform]

    The configuration is the dictionary [PLATFORM_SCHEMA] hands over; its
    values are scalars.  [hass.config.units.name] is the parameter
    [hass_units], and [hass.data[DATA_KEY]] the list [registry].  The data
    object is built before the sensor, so the client's [ValueError] for a
    key that is [None] comes before anything the sensor does.  Where the
    code handles a value as a [str] (the location it splits, the name and
    the modes it stores) and the dictionary holds a value of another type,
    the call is outside the model ([None]). *)

(** [config[key]]. *)
Definition config_getitem (config : gmap string value) (key : string) : outcome value :=
  getitem key (config !! key).

Definition as_str (v : value) : option string :=
  match v with
  | VStr s => Some s
  | _ => None
  end.

(** The origin, and likewise the destination, of the configuration: the
    coordinates joined by a comma when a latitude is given, the entity id
    otherwise. *)
Definition configured_location (config : gmap string value)
    (latitude longitude entity_id : string) : outcome value :=
  match dict_get config latitude with
  | VNone => config_getitem config entity_id
  | _ =>
      lat ← config_getitem config latitude;
      lon ← config_getitem config longitude;
      mret (VStr (join "," [str lat; str lon]))
  end.

(** [openrouteservice.Client(key=api_key)], the client of a library the
    module imports, which [OpenRouteTravelTimeData.__init__] builds: the
    library refuses a key that is [None] with a [ValueError] and takes any
    other. *)
Definition openrouteservice_Client (key : value) : outcome unit :=
  match key with
  | VNone => Raise ValueError
  | _ => Ok tt
  end.

(** What the setup leaves behind: the sensors registered under [DATA_KEY]
    and the call [async_add_entities(entities, update_before_add)]. *)
Record Setup := {
  setup_registry : list OpenRouteTravelTimeSensor.t;
  setup_entities : list OpenRouteTravelTimeSensor.t;
  setup_update_before_add : bool
}.

Definition async_setup_platform (hass_units : string)
    (registry : list OpenRouteTravelTimeSensor.t) (config : gmap string value)
    : option (outcome Setup) :=
  match
    (api_key ← config_getitem config CONF_API_KEY;
     origin ← configured_location config CONF_ORIGIN_LATITUDE
                CONF_ORIGIN_LONGITUDE CONF_ORIGIN_ENTITY_ID;
     destination ← configured_location config CONF_DESTINATION_LATITUDE
                     CONF_DESTINATION_LONGITUDE CONF_DESTINATION_ENTITY_ID;
     (* OpenRouteTravelTimeData(None, None, api_key, ...) builds its client *)
     openrouteservice_Client api_key;;
     mret (origin, destination))
  with
  | Raise e => Some (Raise e)
  | Ok (origin, destination) =>
      let travel_mode := dict_get config CONF_MODE in
      let route_mode := dict_get config CONF_ROUTE_MODE in
      let name := dict_get config CONF_NAME in
      let units := default (VStr hass_units) (config !! CONF_UNIT_SYSTEM) in
      match as_str origin, as_str destination, as_str travel_mode,
            as_str route_mode, as_str name, as_str units with
      | Some origin, Some destination, Some travel_mode,
        Some route_mode, Some name, Some units =>
          let open_route_data :=
            OpenRouteTravelTimeData.__init__ None None travel_mode route_mode units in
          let sensor :=
            OpenRouteTravelTimeSensor.__init__ name origin destination open_route_data in
          Some (Ok {| setup_registry := registry ++ [sensor];
                      setup_entities := [sensor];
                      setup_update_before_add := true |})
      | _, _, _, _, _, _ => None
      end
  end.

(** The default a schema gives an absent key, if any. *)
Fixpoint default_of (schema : vol.dict) (k : string) : option value :=
  match schema with
  | [] => None
  | (vol.Optional k' (Some v), _) :: schema' =>
      if String.eqb k' k then Some v else default_of schema' k
  | _ :: schema' => default_of schema' k
  end.

(** The keys of the platform schema. *)
Definition PLATFORM_KEYS : list string :=
  [ "platform"; "entity_namespace"; "scan_interval"; CONF_API_KEY;
    CONF_DESTINATION_LATITUDE; CONF_DESTINATION_LONGITUDE;
    CONF_DESTINATION_ENTITY_ID; CONF_ORIGIN_LATITUDE; CONF_ORIGIN_LONGITUDE;
    CONF_ORIGIN_ENTITY_ID; CONF_NAME; CONF_MODE; CONF_ROUTE_MODE;
    CONF_UNIT_SYSTEM ].

(** Validators typed like those of [config_validation]: a latitude or
    longitude comes out as a float, an entity id or a string as a [str]. *)
Definition typed_validators (cv : config_validation) : Prop :=
  (forall v v', cv_latitude cv v = Some v' -> exists x, v' = VFloat x)
  /\ (forall v v', cv_longitude cv v = Some v' -> exists x, v' = VFloat x)
  /\ (forall v v', cv_entity_id cv v = Some v' -> exists s, v' = VStr s)
  /\ (forall v v', cv_string cv v = Some v' -> exists s, v' = VStr s).

(** Validators that accept floats for coordinates and strings elsewhere. *)
Definition cv_strict : config_validation :=
  {| cv_latitude := λ v, match v with VFloat _ => Some v | _ => None end;
     cv_longitude := λ v, match v with VFloat _ => Some v | _ => None end;
     cv_entity_id := λ v, match v with VStr _ => Some v | _ => None end;
     cv_string := λ v, match v with VStr _ => Some v | _ => None end;
     cv_time_period := λ v, match v with VInt _ => Some v | _ => None end |}.

(** A configuration from an entity to coordinates. *)
Definition sample_config : gmap string value :=
  <["platform" := VStr "open_route_service"]>
    (<[CONF_API_KEY := VStr "key"]>
       (<[CONF_ORIGIN_ENTITY_ID := VStr "device_tracker.phone"]>
          (<[CONF_DESTINATION_LATITUDE := VFloat 48.1]>
             (<[CONF_DESTINATION_LONGITUDE := VFloat 11.5]> ∅)))).

(** A configuration whose origin is an entity of a domain that is not
    tracked. *)
Definition config_untracked : gmap string value :=
  <["platform" := VStr "open_route_service"]>
    (<[CONF_API_KEY := VStr "key"]>
       (<[CONF_ORIGIN_ENTITY_ID := VStr "input_text.address"]>
          (<[CONF_DESTINATION_ENTITY_ID := VStr "zone.work"]>
             (<[CONF_NAME := VStr "Commute"]>
                (<[CONF_MODE := VStr TRAVEL_MODE_CAR]>
                   (<[CONF_ROUTE_MODE := VStr ROUTE_MODE_FASTEST]> ∅)))))).

(** [config_with_both] as the schema hands it over, with the defaults. *)
Definition config_with_both_validated : gmap string value :=
  <[CONF_NAME := VStr DEFAULT_NAME]>
    (<[CONF_MODE := VStr TRAVEL_MODE_CAR]>
       (<[CONF_ROUTE_MODE := VStr ROUTE_MODE_FASTEST]> config_with_both)).

(** What the setup leaves behind for [config_with_both_validated] and for
    [config_untracked], in a metric installation with an empty registry. *)
Definition sensor_with_both : OpenRouteTravelTimeSensor.t :=
  new_sensor DEFAULT_NAME "52.5,13.4" "zone.work" TRAVEL_MODE_CAR ROUTE_MODE_FASTEST
    "metric".

Definition setup_with_both : Setup :=
  {| setup_registry := [sensor_with_both];
     setup_entities := [sensor_with_both];
     setup_update_before_add := true |}.

Definition sensor_untracked : OpenRouteTravelTimeSensor.t :=
  new_sensor "Commute" "input_text.address" "zone.work" TRAVEL_MODE_CAR
    ROUTE_MODE_FASTEST "metric".

Definition setup_untracked : Setup :=
  {| setup_registry := [sensor_untracked];
     setup_entities := [sensor_untracked];
     setup_update_before_add := true |}.

(** A validated configuration between two coordinate pairs, and the sensor
    the setup builds from it. *)
Definition config_coordinates : gmap string value :=
  <[CONF_API_KEY := VStr "key"]>
    (<[CONF_ORIGIN_LATITUDE := VFloat 52.5]>
       (<[CONF_ORIGIN_LONGITUDE := VFloat 13.4]>
          (<[CONF_DESTINATION_LATITUDE := VFloat 48.1]>
             (<[CONF_DESTINATION_LONGITUDE := VFloat 11.5]>
                (<[CONF_NAME := VStr "Commute"]>
                   (<[CONF_MODE := VStr TRAVEL_MODE_CAR]>
                      (<[CONF_ROUTE_MODE := VStr ROUTE_MODE_FASTEST]> ∅))))))).

Definition sensor_coordinates : OpenRouteTravelTimeSensor.t :=
  new_sensor "Commute" "52.5,13.4" "48.1,11.5" TRAVEL_MODE_CAR ROUTE_MODE_FASTEST
    "metric".

Definition setup_coordinates : Setup :=
  {| setup_registry := [sensor_coordinates];
     setup_entities := [sensor_coordinates];
     setup_update_before_add := true |}.

(** A sensor whose service answered with a duration that is no number. *)
Definition sensor_nan : OpenRouteTravelTimeSensor.t :=
  OpenRouteTravelTimeSensor.with_data
    (OpenRouteTravelTimeData.with_duration (Some nan) (sample_data "metric"))
    sample_sensor.

(** * Properties *)

(** Symbolic execution of [update]: unfold the monad and split on every
    lookup and every answer of the service, innermost first. *)
Ltac run_step :=
  match goal with
  | |- context [match ?x with _ => _ end] =>
      lazymatch x with
      | context [match _ with _ => _ end] => fail
      | _ => destruct x eqn:?; simpl
      end
  end.

Ltac unfold_update :=
  unfold OpenRouteTravelTimeData.update, OpenRouteTravelTimeData.update_body,
    OpenRouteTravelTimeData.client_directions,
    OpenRouteTravelTimeData.client_pelias_reverse,
    OpenRouteTravelTimeData.request, OpenRouteTravelTimeData.lift,
    OpenRouteTravelTimeData.assign, mbind, OpenRouteTravelTimeData.M_bind,
    mret, OpenRouteTravelTimeData.M_ret, getitem, getitem0.

Ltac run_update := unfold_update; simpl; repeat run_step.

(** Rewrite the lookups of the goal with the equations of the context. *)
Ltac use_lookups :=
  unfold with_directions_result;
  repeat (match goal with
          | H : ?x = _ |- context [match ?x with _ => _ end] => rewrite H
          end; simpl).

(** Read a log of requests, known to end with [c], from its last request. *)
Ltac last_request H :=
  match type of H with
  | [] = _ => symmetry in H; apply app_eq_nil in H as [_ H]; discriminate H
  | [?a] = _ => change [a] with ([] ++ [a])%list in H
  | [?a; ?b] = _ => change [a; b] with ([a] ++ [b])%list in H
  | [?a; ?b; ?c] = _ => change [a; b; c] with ([a; b] ++ [c])%list in H
  end;
  apply app_inj_tail in H as [<- H]; try discriminate H.

(** ** Python built-ins *)

Example split_lat_lon : Py.split "," "52.5,13.4" = ["52.5"; "13.4"].
Proof. reflexivity. Qed.

Example split1_entity :
  Py.split1 "." "device_tracker.my.phone" = ["device_tracker"; "my.phone"].
Proof. reflexivity. Qed.

Example round_ties_to_even :
  Py.round 1.5 = Ok 2 /\ Py.round 2.5 = Ok 2 /\ Py.round (-0.4) = Ok 0
  /\ Py.round 59.99 = Ok 60.
Proof. repeat split; vm_compute; reflexivity. Qed.

Example str_of_float_samples :
  List.map Py.str_of_float
    [52.5200066; -13.404954; 1; 0.1; 1e16; 1e-5; 5e-324]%float
  = ["52.5200066"; "-13.404954"; "1.0"; "0.1"; "1e+16"; "1e-05"; "5e-324"].
Proof. vm_compute. reflexivity. Qed.

(** [round_half_even m e] is an integer nearest to [m * 2^e]: for a
    negative exponent, its distance to [m / 2^(-e)] is at most one half. *)
Lemma round_half_even_nearest (m e : Z) :
  e < 0 ->
  let n := round_half_even m e in
  2 * Z.abs (n * 2 ^ (- e) - m) <= 2 ^ (- e).
Proof.
  intros He. unfold round_half_even.
  destruct (Z.leb_spec 0 e) as [H | _]; [lia |].
  assert (Hd : 0 < 2 ^ (- e)) by (apply Z.pow_pos_nonneg; lia).
  pose proof (Z.div_mod m (2 ^ (- e)) ltac:(lia)) as Hdm.
  pose proof (Z.mod_pos_bound m (2 ^ (- e)) Hd) as Hr.
  set (d := 2 ^ (- e)) in *. set (q := m / d) in *. set (r := m mod d) in *.
  destruct (Z.compare_spec (2 * r) d) as [Heq | Hlt | Hgt]; cbv zeta.
  - destruct (Z.even q); nia.
  - nia.
  - nia.
Qed.

Lemma split_no_sep (sep : ascii) (s : string) :
  has_char sep s = false -> split sep s = [s].
Proof.
  induction s as [| c s IH]; simpl; [reflexivity |].
  intros H. apply orb_false_iff in H as [Hc Hs].
  rewrite Hc, (IH Hs). reflexivity.
Qed.

Lemma split_pair (sep : ascii) (a b : string) :
  has_char sep a = false -> has_char sep b = false ->
  split sep (a ++ String sep b) = [a; b].
Proof.
  intros Ha Hb. induction a as [| c a IH]; simpl.
  - rewrite Ascii.eqb_refl, (split_no_sep _ _ Hb). reflexivity.
  - simpl in Ha. apply orb_false_iff in Ha as [Hc Ha].
    rewrite Hc, (IH Ha). reflexivity.
Qed.

(** ** The route summary *)

Lemma last_name_snoc (l : list string) (x : string) :
  last_name (l ++ [x]) = Some x.
Proof.
  unfold last_name. destruct (l ++ [x])%list eqn:E.
  - destruct l; discriminate.
  - rewrite <- E, List.last_last. reflexivity.
Qed.

Lemma road_names_of_collapse (names acc : list string) :
  OpenRouteTravelTimeData.road_names_of (steps_named names) acc
  = Ok (acc ++ collapse (last_name acc) (List.filter is_road_name names))%list.
Proof.
  revert acc. induction names as [| n names IH]; intros acc; simpl.
  - rewrite app_nil_r. reflexivity.
  - unfold mbind, outcome_bind, is_road_name at 1. simpl.
    fold (is_road_name n). destruct (is_road_name n) eqn:Hn; simpl.
    + destruct acc as [| a acc'].
      * simpl. rewrite IH. reflexivity.
      * cbn [last_name orb collapse].
        destruct (String.eqb (List.last (a :: acc') "") n) eqn:E; cbn [negb].
        -- apply IH.
        -- rewrite IH, last_name_snoc, <- app_assoc. reflexivity.
    + apply IH.
Qed.

(** For a step list given by its names, the code computes the route summary
    the specification describes. *)
Lemma get_route_from_steps_summary (names : list string) :
  OpenRouteTravelTimeData._get_route_from_steps (steps_named names)
  = Ok (route_summary names).
Proof.
  unfold OpenRouteTravelTimeData._get_route_from_steps.
  rewrite road_names_of_collapse. reflexivity.
Qed.

(** C3, as the specification states it, fails: on its step list the code
    derives ["Main St; Oak Ave"].  The second "Oak Ave" follows a marker
    that is skipped, so it is compared with the "Oak Ave" appended before
    the marker and dropped. *)
Lemma route_example_is_not_the_spec's :
  OpenRouteTravelTimeData._get_route_from_steps
    (steps_named ["-"; "Main St"; "Main St"; "Oak Ave"; "-"; "Oak Ave"])
  = Ok "Main St; Oak Ave"
  /\ "Main St; Oak Ave" <> "Main St; Oak Ave; Oak Ave".
Proof. split; [reflexivity | discriminate]. Qed.

(** C3 (amended): for the step list ["-", "Main St", "Main St", "Oak Ave",
    "-", "Oak Ave"] the derived route is ["Main St; Oak Ave"]; in general the
    markers are skipped, a name equal to the name appended last is dropped
    (also across skipped markers), and a repeat separated by another name is
    kept. *)
Theorem route_from_steps_collapses_runs :
  OpenRouteTravelTimeData._get_route_from_steps
    (steps_named ["-"; "Main St"; "Main St"; "Oak Ave"; "-"; "Oak Ave"])
  = Ok "Main St; Oak Ave"
  /\ (forall names : list string,
        OpenRouteTravelTimeData._get_route_from_steps (steps_named names)
        = Ok (join "; " (collapse None (List.filter is_road_name names))))
  /\ OpenRouteTravelTimeData._get_route_from_steps
       (steps_named ["Main St"; "Oak Ave"; "-"; "Main St"])
     = Ok "Main St; Oak Ave; Main St".
Proof.
  split; [reflexivity |]. split; [| reflexivity].
  intros names. apply get_route_from_steps_summary.
Qed.

(** ** [update] *)

Lemma update_origin_unset (client : Client) (d : OpenRouteTravelTimeData.t) :
  OpenRouteTravelTimeData.origin d = None ->
  OpenRouteTravelTimeData.update client d = (Ok tt, d, []).
Proof.
  intros H. unfold_update. rewrite H.
  destruct (OpenRouteTravelTimeData.destination d); reflexivity.
Qed.

Lemma update_destination_unset (client : Client) (d : OpenRouteTravelTimeData.t) :
  OpenRouteTravelTimeData.destination d = None ->
  OpenRouteTravelTimeData.update client d = (Ok tt, d, []).
Proof. intros H. unfold_update. rewrite H. reflexivity. Qed.

(** C6: called with origin or destination unset, [update] sends no request
    and leaves the object, hence every result field, as it was. *)
Theorem update_unset_is_noop (client : Client) (d : OpenRouteTravelTimeData.t) :
  OpenRouteTravelTimeData.origin d = None
  \/ OpenRouteTravelTimeData.destination d = None ->
  OpenRouteTravelTimeData.update client d = (Ok tt, d, []).
Proof.
  intros [H | H].
  - apply update_origin_unset, H.
  - apply update_destination_unset, H.
Qed.

Lemma update_unset_is_noop_witness :
  let d := OpenRouteTravelTimeData.with_origin None (sample_data "metric") in
  (OpenRouteTravelTimeData.origin d = None
   \/ OpenRouteTravelTimeData.destination d = None)
  /\ OpenRouteTravelTimeData.update service_up d = (Ok tt, d, []).
Proof.
  split.
  - left. reflexivity.
  - apply update_unset_is_noop. left. reflexivity.
Defined.



(** C7: a successful update stores the response's duration unchanged and
    its distance divided by 1609.344 under the imperial unit system and by
    1000 otherwise. *)
Theorem update_converts_distance (client : Client)
    (d d' : OpenRouteTravelTimeData.t) (dest orig : string)
    (response : DirectionsResponse) (summary : Summary) (dist dur : float)
    (calls : list call) :
  OpenRouteTravelTimeData.destination d = Some dest ->
  OpenRouteTravelTimeData.origin d = Some orig ->
  directions client []
    (reversed (split "," dest), reversed (split "," orig))
    (OpenRouteTravelTimeData.travel_mode d)
    (OpenRouteTravelTimeData.route_mode d) = Ok response ->
  first_summary response = Some summary ->
  sum_distance summary = Some dist ->
  sum_duration summary = Some dur ->
  OpenRouteTravelTimeData.update client d = (Ok tt, d', calls) ->
  OpenRouteTravelTimeData.distance d'
  = Some (if String.eqb (OpenRouteTravelTimeData.units d) CONF_UNIT_SYSTEM_IMPERIAL
          then dist / 1609.344 else dist / 1000)%float
  /\ OpenRouteTravelTimeData.duration d' = Some dur.
Proof.
  intros Hd Ho Hresp Hsum Hdist Hdur. unfold_update.
  rewrite Hd, Ho. simpl. rewrite Hresp. unfold first_summary in Hsum.
  destruct (dr_routes response) as [[| route0 routes] |]; try discriminate.
  simpl. rewrite Hsum. simpl. rewrite Hdist, Hdur. repeat run_step.
  all: intros [= <- <-]; try discriminate; simpl; auto.
Qed.

Lemma update_converts_distance_witness :
  let d' := snd (fst (OpenRouteTravelTimeData.update service_up (sample_data "imperial"))) in
  OpenRouteTravelTimeData.distance d' = Some 10%float
  /\ OpenRouteTravelTimeData.duration d' = Some 1234.5%float.
Proof.
  apply (update_converts_distance service_up (sample_data "imperial") _
           "48.1,11.5" "52.5,13.4" sample_directions
           {| sum_duration := Some 1234.5%float; sum_distance := Some 16093.44%float |}
           16093.44%float 1234.5%float
           (snd (OpenRouteTravelTimeData.update service_up (sample_data "imperial"))));
    reflexivity.
Defined.

Example update_metric_distance :
  OpenRouteTravelTimeData.distance
    (snd (fst (OpenRouteTravelTimeData.update service_up (sample_data "metric"))))
  = Some 16.09344%float.
Proof. reflexivity. Qed.

(** C2, as the specification states it, fails: when the reverse geocoder
    raises, the update has already stored the attribution, duration, distance
    and route of the directions response. *)
Lemma update_is_not_atomic :
  OpenRouteTravelTimeData.update geocoder_down (sample_data "imperial")
  = (Raise (ClientError "timeout"),
     with_directions_result "openrouteservice.org" 1234.5 16093.44
       "Main St; Oak Ave" (sample_data "imperial"),
     [ Directions (["11.5"; "48.1"], ["13.4"; "52.5"]) "driving-car" "fastest";
       PeliasReverse ["11.5"; "48.1"] ])
  /\ OpenRouteTravelTimeData.duration (sample_data "imperial") = None
  /\ OpenRouteTravelTimeData.duration
       (with_directions_result "openrouteservice.org" 1234.5 16093.44
          "Main St; Oak Ave" (sample_data "imperial")) = Some 1234.5%float.
Proof. repeat split. Qed.

(** C2 (amended): an update whose directions request raises leaves the
    object untouched; an update ended by a reverse-geocoding request that
    raises leaves [origin_name] and [destination_name] untouched and has
    overwritten attribution, duration, distance and route from the directions
    response; an update that returns after sending requests has overwritten
    all six fields. *)
Theorem update_failure_and_success (client : Client)
    (d d' : OpenRouteTravelTimeData.t) (r : outcome unit) (calls : list call) :
  OpenRouteTravelTimeData.update client d = (r, d', calls) ->
  (forall dest orig e,
      OpenRouteTravelTimeData.destination d = Some dest ->
      OpenRouteTravelTimeData.origin d = Some orig ->
      directions client [] (coords_of dest orig)
        (OpenRouteTravelTimeData.travel_mode d)
        (OpenRouteTravelTimeData.route_mode d) = Raise e ->
      r = Raise e /\ d' = d)
  /\ (forall sent point e,
        calls = (sent ++ [PeliasReverse point])%list ->
        pelias_reverse client sent point = Raise e ->
        r = Raise e
        /\ OpenRouteTravelTimeData.origin_name d'
           = OpenRouteTravelTimeData.origin_name d
        /\ OpenRouteTravelTimeData.destination_name d'
           = OpenRouteTravelTimeData.destination_name d
        /\ exists dest orig response summary attribution duration distance steps route,
             directions client [] (coords_of dest orig)
               (OpenRouteTravelTimeData.travel_mode d)
               (OpenRouteTravelTimeData.route_mode d) = Ok response
             /\ response_attribution response = Some attribution
             /\ first_summary response = Some summary
             /\ sum_duration summary = Some duration
             /\ sum_distance summary = Some distance
             /\ first_steps response = Some steps
             /\ OpenRouteTravelTimeData._get_route_from_steps steps = Ok route
             /\ d' = with_directions_result attribution duration distance route d)
  /\ (r = Ok tt -> calls <> [] ->
      exists dest orig response summary attribution duration distance steps route
             destination_response origin_response destination_name origin_name,
        directions client [] (coords_of dest orig)
          (OpenRouteTravelTimeData.travel_mode d)
          (OpenRouteTravelTimeData.route_mode d) = Ok response
        /\ response_attribution response = Some attribution
        /\ first_summary response = Some summary
        /\ sum_duration summary = Some duration
        /\ sum_distance summary = Some distance
        /\ first_steps response = Some steps
        /\ OpenRouteTravelTimeData._get_route_from_steps steps = Ok route
        /\ pelias_reverse client [directions_call d dest orig]
             (reversed (split "," dest)) = Ok destination_response
        /\ pelias_reverse client
             [directions_call d dest orig; PeliasReverse (reversed (split "," dest))]
             (reversed (split "," orig)) = Ok origin_response
        /\ OpenRouteTravelTimeData.label_of destination_response = Ok destination_name
        /\ OpenRouteTravelTimeData.label_of origin_response = Ok origin_name
        /\ d' = OpenRouteTravelTimeData.with_destination_name (Some destination_name)
                 (OpenRouteTravelTimeData.with_origin_name (Some origin_name)
                    (with_directions_result attribution duration distance route d))).
Proof.
  unfold coords_of, directions_call, response_attribution, first_summary, first_steps.
  run_update.
  all: intros [= <- <- <-].
  all: split; [intros dest' orig' e' Hd Ho E'; split; congruence |].
  all: split.
  all: try (intros sent' point' e' Hc Hp; last_request Hc;
            (injection Hc as <-; try (exfalso; congruence);
             (split; [congruence |];
              split; [reflexivity |]; split; [reflexivity |];
              repeat eexists; [eassumption | ..]; use_lookups; eauto))).
  all: intros Hr Hc; try discriminate Hr; try (exfalso; apply Hc; reflexivity).
  all: repeat eexists; [eassumption | ..]; use_lookups; eauto.
Qed.

Lemma update_failure_and_success_witness :
  let u := OpenRouteTravelTimeData.update geocoder_down (sample_data "imperial") in
  fst (fst u) = Raise (ClientError "timeout")
  /\ OpenRouteTravelTimeData.origin_name (snd (fst u)) = None
  /\ OpenRouteTravelTimeData.destination_name (snd (fst u)) = None.
Proof.
  destruct (update_failure_and_success geocoder_down (sample_data "imperial")
              _ _ _ eq_refl) as (_ & Hgeocoder & _).
  destruct (Hgeocoder
              [Directions (["11.5"; "48.1"], ["13.4"; "52.5"]) "driving-car" "fastest"]
              ["11.5"; "48.1"] (ClientError "timeout") eq_refl eq_refl)
    as (Hr & Ho & Hd & _).
  exact (conj Hr (conj Ho Hd)).
Defined.

(** ** What the sensor exposes *)

Lemma update_keeps_gate (client : Client) (d d' : OpenRouteTravelTimeData.t)
    (r : outcome unit) (calls : list call) :
  OpenRouteTravelTimeData.update client d = (r, d', calls) ->
  (is_Some (OpenRouteTravelTimeData.duration d) ->
   is_Some (OpenRouteTravelTimeData.attribution d)) ->
  is_Some (OpenRouteTravelTimeData.duration d') ->
  is_Some (OpenRouteTravelTimeData.attribution d').
Proof.
  run_update. all: intros [= <- <- <-]; simpl; eauto.
Qed.

Lemma update_keeps_populated (client : Client) (d d' : OpenRouteTravelTimeData.t)
    (r : outcome unit) (calls : list call) :
  OpenRouteTravelTimeData.update client d = (r, d', calls) ->
  populated d -> populated d'.
Proof.
  unfold populated. run_update.
  all: intros [= <- <- <-]; simpl; intuition eauto.
Qed.

Lemma update_populates (client : Client) (d d' : OpenRouteTravelTimeData.t)
    (calls : list call) :
  OpenRouteTravelTimeData.update client d = (Ok tt, d', calls) ->
  calls <> [] -> populated d'.
Proof.
  unfold populated. run_update.
  all: intros [= <- <-]; simpl; intros Hc; try (exfalso; apply Hc; reflexivity).
  all: repeat split; eauto.
Qed.

Lemma with_origin_same (d : OpenRouteTravelTimeData.t) :
  OpenRouteTravelTimeData.with_origin (OpenRouteTravelTimeData.origin d) d = d.
Proof. destruct d; reflexivity. Qed.

Lemma with_destination_same (d : OpenRouteTravelTimeData.t) :
  OpenRouteTravelTimeData.with_destination (OpenRouteTravelTimeData.destination d) d = d.
Proof. destruct d; reflexivity. Qed.

(** A poll is an update of the data object after its origin and destination
    have been assigned (or left as they were). *)
Lemma async_update_data (hass : HomeAssistant) (client : Client)
    (s s' : OpenRouteTravelTimeSensor.t) (r : outcome unit) (calls : list call) :
  OpenRouteTravelTimeSensor.async_update hass client s = (r, s', calls) ->
  exists o o',
    OpenRouteTravelTimeData.update client
      (OpenRouteTravelTimeData.with_destination o'
         (OpenRouteTravelTimeData.with_origin o
            (OpenRouteTravelTimeSensor._open_route_data s)))
    = (r, OpenRouteTravelTimeSensor._open_route_data s', calls).
Proof.
  unfold OpenRouteTravelTimeSensor.async_update.
  destruct (OpenRouteTravelTimeSensor._origin_entity_id s) as [oid |],
           (OpenRouteTravelTimeSensor._destination_entity_id s) as [did |].
  all: match goal with
       | |- context [OpenRouteTravelTimeData.update ?c ?x] =>
           destruct (OpenRouteTravelTimeData.update c x) as [[r0 d0] c0] eqn:E
       end.
  all: intros [= <- <- <-]; simpl.
  - eexists _, _. exact E.
  - eexists _, _. rewrite with_destination_same. exact E.
  - eexists _, _. rewrite with_origin_same. exact E.
  - eexists _, _. rewrite with_origin_same, with_destination_same. exact E.
Qed.

Lemma new_sensor_unfetched (name origin destination travel_mode route_mode units : string) :
  let d := OpenRouteTravelTimeSensor._open_route_data
             (new_sensor name origin destination travel_mode route_mode units) in
  OpenRouteTravelTimeData.attribution d = None
  /\ OpenRouteTravelTimeData.duration d = None
  /\ OpenRouteTravelTimeData.distance d = None
  /\ OpenRouteTravelTimeData.route d = None
  /\ OpenRouteTravelTimeData.origin_name d = None
  /\ OpenRouteTravelTimeData.destination_name d = None.
Proof.
  unfold new_sensor, OpenRouteTravelTimeSensor.__init__.
  destruct (OpenRouteTravelTimeSensor.is_trackable origin),
           (OpenRouteTravelTimeSensor.is_trackable destination);
    repeat split.
Qed.

(** At every reachable state a stored duration comes with an attribution:
    the attribution is assigned just before the duration, and no field is
    ever reset. *)
Lemma reachable_gate (s : OpenRouteTravelTimeSensor.t) :
  reachable s ->
  is_Some (OpenRouteTravelTimeData.duration (OpenRouteTravelTimeSensor._open_route_data s)) ->
  is_Some (OpenRouteTravelTimeData.attribution (OpenRouteTravelTimeSensor._open_route_data s)).
Proof.
  induction 1 as [name origin destination travel_mode route_mode units
                 | hass client s s' r calls Hs IH Hupd].
  - destruct (new_sensor_unfetched name origin destination travel_mode route_mode units)
      as (_ & Hd & _).
    cbv zeta in Hd. rewrite Hd. intros [x Hx]; discriminate.
  - apply async_update_data in Hupd as (o & o' & Hupd).
    apply (update_keeps_gate _ _ _ _ _ Hupd). exact IH.
Qed.

(** C1, as the specification states it, fails: after a poll in which the
    reverse geocoder raised, the sensor has a state and returns attributes,
    with [origin_name] and [destination_name] still [None]. *)
Lemma partial_result_is_exposed :
  let s := snd (fst (OpenRouteTravelTimeSensor.async_update
                       no_entities geocoder_down sample_sensor)) in
  reachable s
  /\ OpenRouteTravelTimeSensor.state s = Ok (Some "21")
  /\ (OpenRouteTravelTimeSensor.device_state_attributes s
        ≫= λ res, res !! ATTR_ORIGIN_NAME) = Some VNone
  /\ (OpenRouteTravelTimeSensor.device_state_attributes s
        ≫= λ res, res !! ATTR_DISTANCE) = Some (VFloat 10)
  /\ OpenRouteTravelTimeData.origin_name
       (OpenRouteTravelTimeSensor._open_route_data s) = None
  /\ OpenRouteTravelTimeData.destination_name
       (OpenRouteTravelTimeSensor._open_route_data s) = None.
Proof.
  split.
  - apply (reachable_update no_entities geocoder_down sample_sensor _
             (fst (fst (OpenRouteTravelTimeSensor.async_update
                          no_entities geocoder_down sample_sensor)))
             (snd (OpenRouteTravelTimeSensor.async_update
                     no_entities geocoder_down sample_sensor)));
      [apply reachable_new | reflexivity].
  - repeat split; vm_compute; reflexivity.
Qed.

(** C1 (amended): at every reachable state the sensor's state and its
    attributes are exposed together and gated on the duration alone.  Either
    the duration is [None], the state is [None] and no attributes are
    returned; or duration and attribution are populated, the state is that of
    the duration and the attribute dictionary is returned with the eleven
    keys, the remaining result fields as they are stored ([None] possibly).
    All six result fields are populated once a poll has returned after
    sending its requests, and they stay populated. *)
Theorem exposure_is_gated_on_duration (s : OpenRouteTravelTimeSensor.t) :
  reachable s ->
  let d := OpenRouteTravelTimeSensor._open_route_data s in
  ((OpenRouteTravelTimeData.duration d = None
    /\ OpenRouteTravelTimeSensor.state s = Ok None
    /\ OpenRouteTravelTimeSensor.device_state_attributes s = None)
   \/ (exists (duration : float) (attribution : string) (res : gmap string value),
         OpenRouteTravelTimeData.duration d = Some duration
         /\ OpenRouteTravelTimeData.attribution d = Some attribution
         /\ OpenRouteTravelTimeSensor.state s = minutes_of duration
         /\ OpenRouteTravelTimeSensor.device_state_attributes s = Some res
         /\ res !! ATTR_ATTRIBUTION = Some (VStr attribution)
         /\ res !! ATTR_DURATION = Some (VFloat (duration / 60))
         /\ res !! ATTR_DISTANCE
            = Some (of_opt_float (OpenRouteTravelTimeData.distance d))
         /\ res !! ATTR_ROUTE = Some (of_opt_str (OpenRouteTravelTimeData.route d))
         /\ res !! ATTR_ORIGIN_NAME
            = Some (of_opt_str (OpenRouteTravelTimeData.origin_name d))
         /\ res !! ATTR_DESTINATION_NAME
            = Some (of_opt_str (OpenRouteTravelTimeData.destination_name d))
         /\ dom res
            = list_to_set
                [ATTR_ATTRIBUTION; ATTR_DURATION; ATTR_DISTANCE; ATTR_ROUTE;
                 CONF_UNIT_SYSTEM; ATTR_ORIGIN; ATTR_DESTINATION; ATTR_ORIGIN_NAME;
                 ATTR_DESTINATION_NAME; CONF_MODE; CONF_ROUTE_MODE]))
  /\ (forall hass client r s' calls,
        OpenRouteTravelTimeSensor.async_update hass client s = (r, s', calls) ->
        (r = Ok tt -> calls <> [] ->
         populated (OpenRouteTravelTimeSensor._open_route_data s'))
        /\ (populated d ->
            populated (OpenRouteTravelTimeSensor._open_route_data s'))).
Proof.
  intros Hs d. split.
  - pose proof (reachable_gate s Hs) as Hgate. fold d in Hgate.
    unfold OpenRouteTravelTimeSensor.state,
      OpenRouteTravelTimeSensor.device_state_attributes. fold d.
    destruct (OpenRouteTravelTimeData.duration d) as [duration |] eqn:Hd.
    + right. destruct Hgate as [attribution Ha]; [eauto |].
      exists duration, attribution. eexists. rewrite Ha.
      repeat split.
    + left. repeat split.
  - intros hass client r s' calls Hupd.
    apply async_update_data in Hupd as (o & o' & Hupd). split.
    + intros -> Hcalls. exact (update_populates _ _ _ _ Hupd Hcalls).
    + intros Hp. apply (update_keeps_populated _ _ _ _ _ Hupd).
      exact Hp.
Qed.

Lemma exposure_is_gated_on_duration_witness :
  let s := snd (fst (OpenRouteTravelTimeSensor.async_update
                       no_entities geocoder_down sample_sensor)) in
  exists res : gmap string value,
    OpenRouteTravelTimeSensor.device_state_attributes s = Some res
    /\ res !! ATTR_ATTRIBUTION = Some (VStr "openrouteservice.org").
Proof.
  cbv zeta.
  destruct (exposure_is_gated_on_duration _
              (reachable_update no_entities geocoder_down sample_sensor _
                 (Raise (ClientError "timeout"))
                 (snd (OpenRouteTravelTimeSensor.async_update
                         no_entities geocoder_down sample_sensor))
                 (reachable_new _ _ _ _ _ _) eq_refl))
    as [[(Hd & _) | (duration & attribution & res & _ & Ha & _ & Hres & Hattr & _)] _].
  - vm_compute in Hd. discriminate Hd.
  - exists res. split; [exact Hres |].
    vm_compute in Ha. injection Ha as <-. exact Hattr.
Defined.

Lemma async_update_resolved (hass : HomeAssistant) (client : Client)
    (s : OpenRouteTravelTimeSensor.t) :
  OpenRouteTravelTimeSensor.async_update hass client s
  = let '(r, data, calls) :=
      OpenRouteTravelTimeData.update client (resolved_data hass s) in
    (r, OpenRouteTravelTimeSensor.with_data data s, calls).
Proof. reflexivity. Qed.

(** An update that brings no duration back leaves the stored duration. *)
Lemma update_without_duration (client : Client) (d d' : OpenRouteTravelTimeData.t)
    (r : outcome unit) (calls : list call) :
  OpenRouteTravelTimeData.update client d = (r, d', calls) ->
  fetched_duration client d = None ->
  OpenRouteTravelTimeData.duration d' = OpenRouteTravelTimeData.duration d.
Proof.
  unfold fetched_duration, coords_of, first_summary. run_update.
  all: intros [= <- <- <-]; simpl; try reflexivity.
  all: intros; congruence.
Qed.

Lemma resolved_data_duration (hass : HomeAssistant) (s : OpenRouteTravelTimeSensor.t) :
  OpenRouteTravelTimeData.duration (resolved_data hass s)
  = OpenRouteTravelTimeData.duration (OpenRouteTravelTimeSensor._open_route_data s).
Proof.
  unfold resolved_data.
  destruct (OpenRouteTravelTimeSensor._origin_entity_id s),
           (OpenRouteTravelTimeSensor._destination_entity_id s); reflexivity.
Qed.

Lemma never_fetched_duration (s : OpenRouteTravelTimeSensor.t) :
  never_fetched s ->
  OpenRouteTravelTimeData.duration (OpenRouteTravelTimeSensor._open_route_data s) = None.
Proof.
  induction 1 as [name origin destination travel_mode route_mode units
                 | hass client s s' r calls Hs IH Hupd Hfetch].
  - apply (new_sensor_unfetched name origin destination travel_mode route_mode units).
  - rewrite async_update_resolved in Hupd.
    destruct (OpenRouteTravelTimeData.update client (resolved_data hass s))
      as [[r0 d0] c0] eqn:E.
    injection Hupd as <- <- <-. simpl.
    rewrite (update_without_duration _ _ _ _ _ E Hfetch), resolved_data_duration.
    exact IH.
Qed.

(** An update that returns after a directions request that brought no
    duration back has sent nothing. *)
Lemma update_without_duration_no_fetch (client : Client)
    (d d' : OpenRouteTravelTimeData.t) (calls : list call) :
  OpenRouteTravelTimeData.update client d = (Ok tt, d', calls) ->
  fetched_duration client d = None ->
  calls = [].
Proof.
  unfold fetched_duration, coords_of, first_summary. run_update.
  all: intros [= <- <-]; simpl; try reflexivity.
  all: intros; congruence.
Qed.

(** An update ended by a reverse-geocoding request that raises has stored
    the duration its directions request brought back. *)
Lemma update_geocoder_raises (client : Client) (d d' : OpenRouteTravelTimeData.t)
    (r : outcome unit) (calls sent : list call) (point : list string) (e : exn) :
  OpenRouteTravelTimeData.update client d = (r, d', calls) ->
  calls = (sent ++ [PeliasReverse point])%list ->
  pelias_reverse client sent point = Raise e ->
  r = Raise e
  /\ exists duration : float,
       fetched_duration client d = Some duration
       /\ OpenRouteTravelTimeData.duration d' = Some duration.
Proof.
  unfold fetched_duration, coords_of, directions_call, first_summary.
  run_update.
  all: intros [= <- <- <-].
  all: intros Hc Hp; last_request Hc.
  all: injection Hc as <-; try (exfalso; congruence).
  all: split; [congruence |].
  all: eexists; split; [reflexivity |]; use_lookups; simpl; eauto.
Qed.

Lemma never_fetched_no_successful_fetch (s : OpenRouteTravelTimeSensor.t) :
  never_fetched s -> no_successful_fetch s.
Proof.
  induction 1 as [name origin destination travel_mode route_mode units
                 | hass client s s' r calls Hs IH Hupd Hfetch].
  - apply no_successful_fetch_new.
  - apply (no_successful_fetch_poll hass client s s' r calls IH Hupd).
    rewrite async_update_resolved in Hupd.
    destruct (OpenRouteTravelTimeData.update client (resolved_data hass s))
      as [[r0 d0] c0] eqn:E.
    injection Hupd as <- <- <-. intros ->.
    exact (update_without_duration_no_fetch _ _ _ _ E Hfetch).
Qed.

(** C8, as the specification states it, fails: after a first poll whose
    directions request was answered and whose reverse geocoder raised, no
    fetch has succeeded, and the state is ["21"], not [None]. *)
Lemma state_before_successful_fetch :
  let u := OpenRouteTravelTimeSensor.async_update
             no_entities geocoder_down sample_sensor in
  no_successful_fetch (snd (fst u))
  /\ fst (fst u) = Raise (ClientError "timeout")
  /\ OpenRouteTravelTimeSensor.state (snd (fst u)) = Ok (Some "21").
Proof.
  split.
  - apply (no_successful_fetch_poll no_entities geocoder_down sample_sensor _
             (fst (fst (OpenRouteTravelTimeSensor.async_update
                          no_entities geocoder_down sample_sensor)))
             (snd (OpenRouteTravelTimeSensor.async_update
                     no_entities geocoder_down sample_sensor)));
      [apply no_successful_fetch_new | reflexivity |].
    vm_compute. intros H. discriminate H.
  - split; vm_compute; reflexivity.
Qed.

(** C8 (amended): the state is [str(round(duration / 60))] whenever a
    duration is stored, and [None] whenever none is.  None is stored as long
    as no directions request has brought a duration back; such a sensor has
    had no successful fetch, but not the other way round: [update] stores the
    duration before it asks for the names, so a poll ended by a reverse
    geocoder that raises leaves the state at the minutes of the duration its
    directions request brought back.  The rounding is to whole minutes: when
    the quotient is the double [m * 2^e] with a fractional part, the state
    renders an integer within one half of it. *)
Theorem state_is_rounded_minutes (s : OpenRouteTravelTimeSensor.t) :
  (forall duration : float,
      OpenRouteTravelTimeData.duration (OpenRouteTravelTimeSensor._open_route_data s)
      = Some duration ->
      OpenRouteTravelTimeSensor.state s
      = (minutes ← round (duration / 60)%float; Ok (Some (str_of_int minutes))))
  /\ (forall (duration : float) (negative : bool) (m : positive) (e : Z),
        OpenRouteTravelTimeData.duration (OpenRouteTravelTimeSensor._open_route_data s)
        = Some duration ->
        Prim2SF (duration / 60)%float = S754_finite negative m e ->
        e < 0 ->
        exists n : Z,
          OpenRouteTravelTimeSensor.state s
          = Ok (Some (str_of_int (if negative then - n else n)))
          /\ 2 * Z.abs (n * 2 ^ (- e) - Z.pos m) <= 2 ^ (- e))
  /\ (OpenRouteTravelTimeData.duration (OpenRouteTravelTimeSensor._open_route_data s)
      = None ->
      OpenRouteTravelTimeSensor.state s = Ok None)
  /\ (never_fetched s ->
      no_successful_fetch s /\ OpenRouteTravelTimeSensor.state s = Ok None)
  /\ (forall (hass : HomeAssistant) (client : Client) (r : outcome unit)
             (s' : OpenRouteTravelTimeSensor.t) (calls sent : list call)
             (point : list string) (e : exn),
        OpenRouteTravelTimeSensor.async_update hass client s = (r, s', calls) ->
        calls = (sent ++ [PeliasReverse point])%list ->
        pelias_reverse client sent point = Raise e ->
        r = Raise e
        /\ exists duration : float,
             fetched_duration client (resolved_data hass s) = Some duration
             /\ OpenRouteTravelTimeSensor.state s' = minutes_of duration).
Proof.
  split; [| split; [| split; [| split]]].
  - unfold OpenRouteTravelTimeSensor.state. intros duration ->. reflexivity.
  - unfold OpenRouteTravelTimeSensor.state.
    intros duration negative m e -> Hq He. unfold round. rewrite Hq.
    exists (round_half_even (Z.pos m) e). split; [reflexivity |].
    apply round_half_even_nearest, He.
  - unfold OpenRouteTravelTimeSensor.state. intros ->. reflexivity.
  - intros H. split; [exact (never_fetched_no_successful_fetch s H) |].
    unfold OpenRouteTravelTimeSensor.state.
    rewrite (never_fetched_duration s H). reflexivity.
  - intros hass client r s' calls sent point e Hupd Hcalls Hraise.
    rewrite async_update_resolved in Hupd.
    destruct (OpenRouteTravelTimeData.update client (resolved_data hass s))
      as [[r0 d0] c0] eqn:E.
    injection Hupd as <- <- <-.
    destruct (update_geocoder_raises _ _ _ _ _ _ _ _ E Hcalls Hraise)
      as (Hr & duration & Hfetch & Hd).
    split; [exact Hr |]. exists duration. split; [exact Hfetch |].
    unfold OpenRouteTravelTimeSensor.state. simpl. rewrite Hd. reflexivity.
Qed.

Lemma state_is_rounded_minutes_witness :
  OpenRouteTravelTimeSensor.state
    (snd (fst (OpenRouteTravelTimeSensor.async_update
                 no_entities service_up sample_sensor)))
  = Ok (Some "21")
  /\ OpenRouteTravelTimeSensor.state
       (snd (fst (OpenRouteTravelTimeSensor.async_update
                    no_entities service_down sample_sensor)))
     = Ok None
  /\ fst (fst (OpenRouteTravelTimeSensor.async_update
                 no_entities geocoder_down sample_sensor))
     = Raise (ClientError "timeout").
Proof.
  split; [| split].
  - exact (proj1 (state_is_rounded_minutes
                    (snd (fst (OpenRouteTravelTimeSensor.async_update
                                 no_entities service_up sample_sensor))))
                 1234.5%float eq_refl).
  - refine (proj2 (proj1 (proj2 (proj2 (proj2 (state_is_rounded_minutes _)))) _)).
    apply (never_fetched_poll no_entities service_down sample_sensor _
             (Raise (ClientError "timeout"))
             [Directions (["11.5"; "48.1"], ["13.4"; "52.5"]) "driving-car" "fastest"]);
      [apply never_fetched_new | reflexivity | reflexivity].
  - exact (proj1 (proj2 (proj2 (proj2 (proj2 (state_is_rounded_minutes sample_sensor))))
                   no_entities geocoder_down
                   (fst (fst (OpenRouteTravelTimeSensor.async_update
                                no_entities geocoder_down sample_sensor)))
                   (snd (fst (OpenRouteTravelTimeSensor.async_update
                                no_entities geocoder_down sample_sensor)))
                   (snd (OpenRouteTravelTimeSensor.async_update
                           no_entities geocoder_down sample_sensor))
                   [Directions (["11.5"; "48.1"], ["13.4"; "52.5"])
                      "driving-car" "fastest"]
                   ["11.5"; "48.1"] (ClientError "timeout")
                   eq_refl eq_refl eq_refl)).
Defined.

(** ** Resolving entity references *)

(** C4, as the specification states it, fails: the origin resolved from the
    phone in one poll is not kept by the next poll, in which the phone cannot
    be found; it is set to [None]. *)
Lemma missing_entity_forgets_location :
  let s1 := snd (fst (OpenRouteTravelTimeSensor.async_update
                        sample_hass service_up tracking_sensor)) in
  let u2 := OpenRouteTravelTimeSensor.async_update no_entities service_up s1 in
  OpenRouteTravelTimeSensor._origin_entity_id s1 = Some "device_tracker.phone"
  /\ OpenRouteTravelTimeData.origin (OpenRouteTravelTimeSensor._open_route_data s1)
     = Some "52.5,13.4"
  /\ states_get no_entities "device_tracker.phone" = None
  /\ fst (fst u2) = Ok tt
  /\ OpenRouteTravelTimeData.origin
       (OpenRouteTravelTimeSensor._open_route_data (snd (fst u2))) = None.
Proof. repeat split; vm_compute; reflexivity. Qed.

(** C4 (amended): a poll in which a referenced origin or destination entity
    cannot be found raises no exception and sends no request; the
    corresponding location field is set to [None] for that cycle (it does not
    keep its previous value) and the result fields are left as they were. *)
Theorem missing_entity_unsets_location (hass : HomeAssistant) (client : Client)
    (s s' : OpenRouteTravelTimeSensor.t) (r : outcome unit) (calls : list call) :
  OpenRouteTravelTimeSensor.async_update hass client s = (r, s', calls) ->
  let d := OpenRouteTravelTimeSensor._open_route_data s in
  let d' := OpenRouteTravelTimeSensor._open_route_data s' in
  (forall id,
      OpenRouteTravelTimeSensor._origin_entity_id s = Some id ->
      states_get hass id = None ->
      r = Ok tt /\ calls = [] /\ OpenRouteTravelTimeData.origin d' = None
      /\ same_result d d')
  /\ (forall id,
        OpenRouteTravelTimeSensor._destination_entity_id s = Some id ->
        states_get hass id = None ->
        r = Ok tt /\ calls = [] /\ OpenRouteTravelTimeData.destination d' = None
        /\ same_result d d').
Proof.
  intros Hupd d d'. subst d d'. rewrite async_update_resolved in Hupd.
  split; intros id Hid Hget.
  - assert (Ho : OpenRouteTravelTimeData.origin (resolved_data hass s) = None).
    { unfold resolved_data, OpenRouteTravelTimeSensor._get_location_from_entity.
      rewrite Hid, Hget.
      destruct (OpenRouteTravelTimeSensor._destination_entity_id s); reflexivity. }
    rewrite (update_origin_unset client _ Ho) in Hupd.
    injection Hupd as <- <- <-. simpl. rewrite Ho.
    repeat split; unfold resolved_data;
      destruct (OpenRouteTravelTimeSensor._origin_entity_id s),
               (OpenRouteTravelTimeSensor._destination_entity_id s); reflexivity.
  - assert (Hd : OpenRouteTravelTimeData.destination (resolved_data hass s) = None).
    { unfold resolved_data, OpenRouteTravelTimeSensor._get_location_from_entity.
      rewrite Hid, Hget. reflexivity. }
    rewrite (update_destination_unset client _ Hd) in Hupd.
    injection Hupd as <- <- <-. simpl. rewrite Hd.
    repeat split; unfold resolved_data;
      destruct (OpenRouteTravelTimeSensor._origin_entity_id s),
               (OpenRouteTravelTimeSensor._destination_entity_id s); reflexivity.
Qed.

Lemma missing_entity_unsets_location_witness :
  let u := OpenRouteTravelTimeSensor.async_update no_entities service_up
             tracking_sensor in
  fst (fst u) = Ok tt /\ snd u = []
  /\ OpenRouteTravelTimeData.origin
       (OpenRouteTravelTimeSensor._open_route_data (snd (fst u))) = None.
Proof.
  destruct (missing_entity_unsets_location no_entities service_up tracking_sensor
              _ _ _ eq_refl) as [Horigin _].
  destruct (Horigin "device_tracker.phone" eq_refl eq_refl) as (Hr & Hc & Ho & _).
  exact (conj Hr (conj Hc Ho)).
Defined.

(** C5, as the specification states it, fails: the phone is in the zone
    "work", which carries coordinates, and is resolved to its own
    coordinates. *)
Lemma own_coordinates_come_first :
  states_get sample_hass "device_tracker.phone" = Some phone
  /\ states_get sample_hass ("zone." ++ State.state phone) = Some zone_work
  /\ has_location (Some zone_work) = true
  /\ OpenRouteTravelTimeSensor._get_location_from_attributes zone_work = "48.1,11.5"
  /\ OpenRouteTravelTimeSensor._get_location_from_entity
       sample_hass "device_tracker.phone" = Some "52.5,13.4".
Proof. repeat split; vm_compute; reflexivity. Qed.

(** C5 (amended): an entity that carries no coordinate attributes of its own
    and whose state names a zone with coordinate attributes is resolved to
    the zone's ["lat,lon"]. *)
Theorem zone_coordinates_for_entity_without_own (hass : HomeAssistant)
    (entity_id : string) (entity zone : State.t) (lat lon : float) :
  states_get hass entity_id = Some entity ->
  has_location (Some entity) = false ->
  states_get hass ("zone." ++ State.state entity) = Some zone ->
  State.attributes zone !! ATTR_LATITUDE = Some (VFloat lat) ->
  State.attributes zone !! ATTR_LONGITUDE = Some (VFloat lon) ->
  OpenRouteTravelTimeSensor._get_location_from_entity hass entity_id
  = Some (str_of_float lat ++ "," ++ str_of_float lon).
Proof.
  intros He Hown Hz Hlat Hlon.
  unfold OpenRouteTravelTimeSensor._get_location_from_entity.
  rewrite He, Hown, Hz.
  unfold has_location, OpenRouteTravelTimeSensor._get_location_from_attributes,
    dict_get.
  rewrite Hlat, Hlon. simpl. rewrite Hlat, Hlon. reflexivity.
Qed.

Lemma zone_coordinates_for_entity_without_own_witness :
  OpenRouteTravelTimeSensor._get_location_from_entity sample_hass "person.ada"
  = Some "48.1,11.5".
Proof.
  exact (zone_coordinates_for_entity_without_own sample_hass "person.ada"
           person_at_work zone_work 48.1 11.5 eq_refl eq_refl eq_refl eq_refl eq_refl).
Defined.

(** ** The configuration schema *)

(** The markers of the schema dictionary: the [Exclusive] markers of the two
    latitudes are not among them.  Each has the key of the [Inclusive] marker
    written before it in the dictionary display, which stays. *)
Lemma platform_schema_markers (cv : config_validation) :
  List.map fst (PLATFORM_SCHEMA_DICT cv)
  = [ vol.Required "platform";
      vol.Optional "entity_namespace" None;
      vol.Optional "scan_interval" None;
      vol.Required "api_key";
      vol.Inclusive "destination_latitude" "destination_coordinates";
      vol.Inclusive "destination_longitude" "destination_coordinates";
      vol.Exclusive "destination_entity_id" "destination";
      vol.Inclusive "origin_latitude" "origin_coordinates";
      vol.Inclusive "origin_longitude" "origin_coordinates";
      vol.Exclusive "origin_entity_id" "origin";
      vol.Optional "name" (Some (VStr "Openroute Service Travel Time"));
      vol.Optional "mode" (Some (VStr "driving-car"));
      vol.Optional "route_mode" (Some (VStr "fastest"));
      vol.Optional "unit_system" None ].
Proof. reflexivity. Qed.

Lemma is_Some_validate_dict (schema : vol.dict) (data : gmap string value) :
  vol.exclusion_broken schema data = false ->
  vol.inclusion_broken schema data = false ->
  vol.values_pass schema (vol.with_defaults schema data) = true ->
  vol.required_present schema (vol.with_defaults schema data) = true ->
  is_Some (vol.validate_dict schema data).
Proof.
  intros He Hi Hv Hr. unfold vol.validate_dict, vol.validate_mapping.
  rewrite He, Hi, Hv, Hr. eexists. reflexivity.
Qed.

(** C9 fails on the code: a configuration that gives the origin both as a
    coordinate pair and as an entity reference is accepted, provided its
    values are ones the value validators accept. *)
Theorem schema_accepts_coordinates_and_entity (cv : config_validation) :
  is_Some (cv_string cv (VStr "open_route_service")) ->
  is_Some (cv_string cv (VStr "key")) ->
  is_Some (cv_string cv (VStr DEFAULT_NAME)) ->
  is_Some (cv_latitude cv (VFloat 52.5)) ->
  is_Some (cv_longitude cv (VFloat 13.4)) ->
  is_Some (cv_entity_id cv (VStr "device_tracker.phone")) ->
  is_Some (cv_entity_id cv (VStr "zone.work")) ->
  is_Some (PLATFORM_SCHEMA cv config_with_both).
Proof.
  intros [v1 H1] [v2 H2] [v3 H3] [v4 H4] [v5 H5] [v6 H6] [v7 H7].
  destruct cv as [latitude longitude entity_id string_ time_period].
  cbn [cv_string cv_latitude cv_longitude cv_entity_id] in *.
  unfold PLATFORM_SCHEMA.
  replace (has_at_least_one_key
             [CONF_DESTINATION_LATITUDE; CONF_DESTINATION_ENTITY_ID] config_with_both)
    with (Some config_with_both) by reflexivity.
  cbn [mbind option_bind].
  replace (has_at_least_one_key
             [CONF_ORIGIN_LATITUDE; CONF_ORIGIN_ENTITY_ID] config_with_both)
    with (Some config_with_both) by reflexivity.
  cbn [mbind option_bind].
  apply is_Some_validate_dict.
  - reflexivity.
  - reflexivity.
  - unfold vol.values_pass.
    match goal with
    | |- forallb _ ?l = true =>
        let l' := eval vm_compute in l in
        replace l with l' by (vm_compute; reflexivity)
    end.
    unfold DEFAULT_NAME in H3. cbn. rewrite H1, H2, H3, H4, H5, H6, H7. reflexivity.
  - reflexivity.
Qed.

Lemma schema_accepts_coordinates_and_entity_witness :
  is_Some (PLATFORM_SCHEMA cv_permissive config_with_both).
Proof.
  apply schema_accepts_coordinates_and_entity; eexists; reflexivity.
Defined.

(** What the schema does enforce: each endpoint is given by a latitude or an
    entity reference at least, and a latitude comes with its longitude. *)
Lemma schema_accepted_shape (cv : config_validation) (config out : gmap string value) :
  PLATFORM_SCHEMA cv config = Some out ->
  (vol.contains config CONF_DESTINATION_LATITUDE
   || vol.contains config CONF_DESTINATION_ENTITY_ID = true)
  /\ (vol.contains config CONF_ORIGIN_LATITUDE
      || vol.contains config CONF_ORIGIN_ENTITY_ID = true)
  /\ vol.contains config CONF_DESTINATION_LATITUDE
     = vol.contains config CONF_DESTINATION_LONGITUDE
  /\ vol.contains config CONF_ORIGIN_LATITUDE
     = vol.contains config CONF_ORIGIN_LONGITUDE.
Proof.
  unfold PLATFORM_SCHEMA, has_at_least_one_key. simpl existsb.
  destruct (vol.contains config CONF_DESTINATION_LATITUDE) eqn:Hdlat,
           (vol.contains config CONF_DESTINATION_ENTITY_ID) eqn:Hdid;
    simpl; try discriminate.
  all: destruct (vol.contains config CONF_ORIGIN_LATITUDE) eqn:Holat,
                (vol.contains config CONF_ORIGIN_ENTITY_ID) eqn:Hoid;
    simpl; try discriminate.
  all: unfold vol.validate_dict.
  all: destruct (vol.exclusion_broken _ _); try discriminate.
  all: unfold vol.inclusion_broken.
  all: replace (vol.labels vol.inclusion_label (PLATFORM_SCHEMA_DICT cv))
         with ["destination_coordinates"; "destination_coordinates";
               "origin_coordinates"; "origin_coordinates"] by reflexivity.
  all: simpl existsb.
  all: replace (vol.group vol.inclusion_label "destination_coordinates"
                  (PLATFORM_SCHEMA_DICT cv))
         with [CONF_DESTINATION_LATITUDE; CONF_DESTINATION_LONGITUDE] by reflexivity.
  all: replace (vol.group vol.inclusion_label "origin_coordinates"
                  (PLATFORM_SCHEMA_DICT cv))
         with [CONF_ORIGIN_LATITUDE; CONF_ORIGIN_LONGITUDE] by reflexivity.
  all: unfold vol.some_not_all; simpl; rewrite ?Hdlat, ?Holat.
  all: destruct (vol.contains config CONF_DESTINATION_LONGITUDE),
                (vol.contains config CONF_ORIGIN_LONGITUDE);
    simpl; try discriminate; auto.
Qed.

(** Two [Exclusive] markers of one group and different keys do exclude each
    other: the mechanism works where the dictionary keeps both markers. *)
Example exclusive_markers_exclude :
  let schema :=
    vol.display [ (vol.Exclusive "latitude" "place", Some);
                  (vol.Exclusive "entity_id" "place", Some) ] in
  vol.validate_dict schema (<["latitude" := VFloat 52.5]> ∅) = Some (<["latitude" := VFloat 52.5]> ∅)
  /\ vol.validate_dict schema
       (<["latitude" := VFloat 52.5]> (<["entity_id" := VStr "zone.work"]> ∅)) = None.
Proof. split; reflexivity. Qed.

(** A configuration without any destination is rejected. *)
Example schema_rejects_neither :
  PLATFORM_SCHEMA cv_permissive (delete CONF_DESTINATION_ENTITY_ID config_with_both)
  = None.
Proof. reflexivity. Qed.

(** * Further properties *)

(** ** [_get_route_from_steps] *)

Lemma collapse_head (previous : string) (names : list string) :
  match collapse (Some previous) names with
  | n :: _ => previous <> n
  | [] => True
  end.
Proof.
  induction names as [| n names IH]; simpl; [exact I |].
  destruct (String.eqb previous n) eqn:E; [exact IH |].
  apply String.eqb_neq, E.
Qed.

Lemma collapse_adjacent_distinct (previous : option string) (names : list string) :
  adjacent_distinct (collapse previous names).
Proof.
  revert previous. induction names as [| n names IH]; intros previous; simpl;
    [exact I |].
  destruct (match previous with Some p => String.eqb p n | None => false end);
    [apply IH |].
  pose proof (collapse_head n names) as Hhead. pose proof (IH (Some n)) as Hrest.
  simpl. destruct (collapse (Some n) names); [exact I | split; assumption].
Qed.

Lemma collapse_sublist (previous : option string) (names : list string) :
  sublist (collapse previous names) names.
Proof.
  revert previous. induction names as [| n names IH]; intros previous; simpl;
    [constructor |].
  destruct (match previous with Some p => String.eqb p n | None => false end).
  - apply sublist_cons, IH.
  - apply sublist_skip, IH.
Qed.

Lemma filter_road_names_sublist (names : list string) :
  sublist (List.filter is_road_name names) names.
Proof.
  induction names as [| n names IH]; simpl; [constructor |].
  destruct (is_road_name n); [apply sublist_skip | apply sublist_cons]; exact IH.
Qed.

(** The road names of a route: none is the "no name" marker, no two
    neighbours are equal, and they are step names in the steps' order. *)
Theorem route_names_invariant (names : list string) :
  exists road_names : list string,
    OpenRouteTravelTimeData.road_names_of (steps_named names) [] = Ok road_names
    /\ OpenRouteTravelTimeData._get_route_from_steps (steps_named names)
       = Ok (join "; " road_names)
    /\ ~ In "-" road_names
    /\ adjacent_distinct road_names
    /\ sublist road_names names.
Proof.
  exists (collapse None (List.filter is_road_name names)).
  split; [apply road_names_of_collapse |].
  split; [unfold OpenRouteTravelTimeData._get_route_from_steps;
          rewrite road_names_of_collapse; reflexivity |].
  split; [| split].
  - intros Hin.
    assert (Hf : In "-" (List.filter is_road_name names)).
    { apply list_elem_of_In.
      eapply elem_of_sublist; [apply list_elem_of_In, Hin | apply collapse_sublist]. }
    apply List.filter_In in Hf as [_ Hf]. discriminate Hf.
  - apply collapse_adjacent_distinct.
  - etransitivity; [apply collapse_sublist | apply filter_road_names_sublist].
Qed.

Lemma road_names_of_nameless (steps : list Step) (acc : list string) :
  existsb nameless steps = true ->
  OpenRouteTravelTimeData.road_names_of steps acc = Raise (KeyError "name").
Proof.
  revert acc. induction steps as [| [name] steps IH]; intros acc; simpl;
    [discriminate |].
  unfold nameless at 1. simpl. destruct name as [n |]; simpl; [| reflexivity].
  intros H. unfold mbind, outcome_bind. simpl.
  destruct (negb (String.eqb n "-")); [| apply IH, H].
  destruct (_ || _); apply IH, H.
Qed.

Lemma steps_named_of (steps : list Step) :
  existsb nameless steps = false ->
  steps = steps_named (omap step_name steps).
Proof.
  induction steps as [| [name] steps IH]; simpl; [reflexivity |].
  unfold nameless at 1. simpl. destruct name as [n |]; simpl; [| discriminate].
  intros H. unfold steps_named in *. simpl. f_equal. apply IH, H.
Qed.

(** A step without a name makes [_get_route_from_steps] raise
    [KeyError("name")], wherever it stands in the list; a list in which every
    step has a name never raises. *)
Theorem route_raises_iff_nameless_step (steps : list Step) :
  if existsb nameless steps
  then OpenRouteTravelTimeData._get_route_from_steps steps = Raise (KeyError "name")
  else OpenRouteTravelTimeData._get_route_from_steps steps
       = Ok (route_summary (omap step_name steps)).
Proof.
  destruct (existsb nameless steps) eqn:E.
  - unfold OpenRouteTravelTimeData._get_route_from_steps.
    rewrite (road_names_of_nameless _ _ E). reflexivity.
  - rewrite (steps_named_of steps E) at 1. apply get_route_from_steps_summary.
Qed.

(** ** [update]: what it leaves alone *)

Lemma update_query_unchanged (client : Client) (d d' : OpenRouteTravelTimeData.t)
    (r : outcome unit) (calls : list call) :
  OpenRouteTravelTimeData.update client d = (r, d', calls) ->
  OpenRouteTravelTimeData.origin d' = OpenRouteTravelTimeData.origin d
  /\ OpenRouteTravelTimeData.destination d' = OpenRouteTravelTimeData.destination d
  /\ OpenRouteTravelTimeData.travel_mode d' = OpenRouteTravelTimeData.travel_mode d
  /\ OpenRouteTravelTimeData.route_mode d' = OpenRouteTravelTimeData.route_mode d
  /\ OpenRouteTravelTimeData.units d' = OpenRouteTravelTimeData.units d
  /\ OpenRouteTravelTimeData.base_time d' = OpenRouteTravelTimeData.base_time d.
Proof.
  run_update. all: intros [= <- <- <-]; repeat split; simpl; auto.
Qed.

(** An update never touches the query: origin, destination, travel mode,
    route mode, units and base time are the same afterwards, whatever the
    service answers. *)
Theorem update_keeps_query (client : Client) (d : OpenRouteTravelTimeData.t) :
  OpenRouteTravelTimeData.origin (updated client d) = OpenRouteTravelTimeData.origin d
  /\ OpenRouteTravelTimeData.destination (updated client d)
     = OpenRouteTravelTimeData.destination d
  /\ OpenRouteTravelTimeData.travel_mode (updated client d)
     = OpenRouteTravelTimeData.travel_mode d
  /\ OpenRouteTravelTimeData.route_mode (updated client d)
     = OpenRouteTravelTimeData.route_mode d
  /\ OpenRouteTravelTimeData.units (updated client d) = OpenRouteTravelTimeData.units d
  /\ OpenRouteTravelTimeData.base_time (updated client d)
     = OpenRouteTravelTimeData.base_time d.
Proof.
  unfold updated.
  destruct (OpenRouteTravelTimeData.update client d) as [[r d'] calls] eqn:E.
  simpl. exact (update_query_unchanged client d d' r calls E).
Qed.

(** An update never unsets a result field: each of the six that held a
    value before holds one afterwards, also when the update raised. *)
Theorem update_never_unsets (client : Client) (d : OpenRouteTravelTimeData.t) :
  (is_Some (OpenRouteTravelTimeData.attribution d) ->
   is_Some (OpenRouteTravelTimeData.attribution (updated client d)))
  /\ (is_Some (OpenRouteTravelTimeData.duration d) ->
      is_Some (OpenRouteTravelTimeData.duration (updated client d)))
  /\ (is_Some (OpenRouteTravelTimeData.distance d) ->
      is_Some (OpenRouteTravelTimeData.distance (updated client d)))
  /\ (is_Some (OpenRouteTravelTimeData.route d) ->
      is_Some (OpenRouteTravelTimeData.route (updated client d)))
  /\ (is_Some (OpenRouteTravelTimeData.origin_name d) ->
      is_Some (OpenRouteTravelTimeData.origin_name (updated client d)))
  /\ (is_Some (OpenRouteTravelTimeData.destination_name d) ->
      is_Some (OpenRouteTravelTimeData.destination_name (updated client d))).
Proof.
  unfold updated.
  destruct (OpenRouteTravelTimeData.update client d) as [[r d'] calls] eqn:E.
  revert E. run_update. all: intros [= <- <- <-]; simpl; repeat split; eauto.
Qed.

Lemma update_never_unsets_witness :
  let d := updated service_up (sample_data "metric") in
  is_Some (OpenRouteTravelTimeData.origin_name d)
  /\ is_Some (OpenRouteTravelTimeData.origin_name (updated geocoder_down d)).
Proof.
  assert (H : is_Some (OpenRouteTravelTimeData.origin_name
                         (updated service_up (sample_data "metric"))))
    by (eexists; reflexivity).
  split; [exact H |].
  destruct (update_never_unsets geocoder_down
              (updated service_up (sample_data "metric")))
    as (_ & _ & _ & _ & Hname & _).
  exact (Hname H).
Defined.

(** ** [update]: requests and failures *)

Lemma update_calls_shape (client : Client) (d d' : OpenRouteTravelTimeData.t)
    (r : outcome unit) (calls : list call) :
  OpenRouteTravelTimeData.update client d = (r, d', calls) ->
  match OpenRouteTravelTimeData.destination d, OpenRouteTravelTimeData.origin d with
  | Some dest, Some orig =>
      exists rest : list call,
        calls = directions_call d dest orig :: rest /\ (length rest <= 2)%nat
  | _, _ => calls = []
  end.
Proof.
  unfold directions_call, coords_of. run_update.
  all: intros [= <- <- <-]; simpl; try reflexivity.
  all: eexists; split; [reflexivity | simpl; lia].
Qed.

(** An update sends no request unless both origin and destination are set;
    when they are, the directions request comes first and at most two more
    follow. *)
Theorem update_sends_iff_both_set (client : Client) (d : OpenRouteTravelTimeData.t) :
  match OpenRouteTravelTimeData.destination d, OpenRouteTravelTimeData.origin d with
  | Some dest, Some orig =>
      exists rest : list call,
        update_calls client d = directions_call d dest orig :: rest
        /\ (length rest <= 2)%nat
  | _, _ => update_calls client d = []
  end.
Proof.
  unfold update_calls.
  destruct (OpenRouteTravelTimeData.update client d) as [[r d'] calls] eqn:E.
  simpl. exact (update_calls_shape client d d' r calls E).
Qed.

(** A directions response from which attribution, summary or step list
    cannot be read makes the update raise a [KeyError] or an [IndexError]
    before anything is stored: the object is untouched and no reverse
    geocoding is requested. *)
Theorem update_malformed_response_untouched (client : Client)
    (d : OpenRouteTravelTimeData.t) (dest orig : string)
    (response : DirectionsResponse) :
  OpenRouteTravelTimeData.destination d = Some dest ->
  OpenRouteTravelTimeData.origin d = Some orig ->
  directions client [] (coords_of dest orig)
    (OpenRouteTravelTimeData.travel_mode d)
    (OpenRouteTravelTimeData.route_mode d) = Ok response ->
  malformed response ->
  exists e : exn,
    OpenRouteTravelTimeData.update client d
    = (Raise e, d, [directions_call d dest orig])
    /\ (e = IndexError \/ exists key, e = KeyError key).
Proof.
  unfold malformed, first_summary, first_steps, response_attribution,
    coords_of, directions_call.
  intros Hd Ho Hresp Hbad. unfold_update. rewrite Hd, Ho. simpl. rewrite Hresp.
  repeat run_step.
  all: try (eexists; split; [reflexivity | eauto]).
  all: exfalso; destruct Hbad as [H | [H | H]]; revert H; use_lookups;
    discriminate.
Qed.

Lemma update_malformed_response_untouched_witness :
  OpenRouteTravelTimeData.update service_without_routes (sample_data "metric")
  = (Raise IndexError, sample_data "metric",
     [Directions (["11.5"; "48.1"], ["13.4"; "52.5"]) "driving-car" "fastest"]).
Proof.
  destruct (update_malformed_response_untouched service_without_routes
              (sample_data "metric") "48.1,11.5" "52.5,13.4"
              {| dr_routes := Some [];
                 dr_metadata := Some {| md_attribution := Some "openrouteservice.org" |} |}
              eq_refl eq_refl eq_refl (or_introl eq_refl)) as (e & Hupd & _).
  reflexivity.
Defined.

(** Updating again against a service that answers the same changes nothing
    more: the second update has the outcome, the object and the requests of
    the first. *)
Theorem update_twice_same (client : Client) (d : OpenRouteTravelTimeData.t) :
  OpenRouteTravelTimeData.update client (updated client d)
  = OpenRouteTravelTimeData.update client d.
Proof.
  enough (H : forall again, again = OpenRouteTravelTimeData.update client ->
              forall r d' calls,
                OpenRouteTravelTimeData.update client d = (r, d', calls) ->
                again d' = (r, d', calls)).
  { unfold updated.
    destruct (OpenRouteTravelTimeData.update client d) as [[r d'] calls] eqn:E.
    exact (H _ eq_refl _ _ _ eq_refl). }
  intros again Hagain r d' calls. run_update.
  all: intros [= <- <- <-]; subst again; unfold_update; simpl.
  all: repeat (match goal with
               | H : ?x = _ |- context [match ?x with _ => _ end] => rewrite H
               end; simpl).
  all: reflexivity.
Qed.

(** ** Strings of coordinates *)

Lemma all_chars_append (P : ascii -> bool) (a b : string) :
  all_chars P (a ++ b) = all_chars P a && all_chars P b.
Proof.
  induction a as [| c a IH]; simpl; [reflexivity |].
  rewrite IH, andb_assoc. reflexivity.
Qed.

Lemma all_chars_substring (P : ascii -> bool) (s : string) (n m : nat) :
  all_chars P s = true -> all_chars P (substring n m s) = true.
Proof.
  revert n m. induction s as [| c s IH]; intros n m H.
  - destruct n, m; reflexivity.
  - simpl in H. apply andb_true_iff in H as [Hc Hs].
    destruct n as [| n]; simpl.
    + destruct m as [| m]; simpl; [reflexivity |].
      rewrite Hc. apply IH, Hs.
    + apply IH, Hs.
Qed.

Lemma all_chars_zeros (n : nat) : all_chars numeral_char (zeros n) = true.
Proof. induction n as [| n IH]; simpl; [reflexivity | exact IH]. Qed.

Lemma all_chars_weaken (P Q : ascii -> bool) (s : string) :
  (forall c, P c = true -> Q c = true) ->
  all_chars P s = true -> all_chars Q s = true.
Proof.
  intros HPQ. induction s as [| c s IH]; simpl; [reflexivity |].
  intros H. apply andb_true_iff in H as [Hc Hs].
  rewrite (HPQ c Hc), (IH Hs). reflexivity.
Qed.

Lemma all_chars_has_char (P : ascii -> bool) (c : ascii) (s : string) :
  all_chars P s = true -> P c = false -> has_char c s = false.
Proof.
  intros Hs Hc. induction s as [| c' s IH]; simpl; [reflexivity |].
  simpl in Hs. apply andb_true_iff in Hs as [Hc' Hs].
  rewrite (IH Hs), orb_false_r. apply Ascii.eqb_neq. congruence.
Qed.

Lemma string_of_uint_chars (d : Decimal.uint) :
  all_chars numeral_char (NilEmpty.string_of_uint d) = true.
Proof. induction d; simpl; try reflexivity; exact IHd. Qed.

Lemma str_of_int_chars (z : Z) : all_chars numeral_char (str_of_int z) = true.
Proof.
  unfold str_of_int, NilZero.string_of_int, NilZero.string_of_uint.
  destruct (Z.to_int z) as [d | d]; destruct d; simpl; try reflexivity;
    apply string_of_uint_chars.
Qed.

Lemma format_repr_chars (digits : string) (decpt : Z) :
  all_chars numeral_char digits = true ->
  all_chars numeral_char (format_repr digits decpt) = true.
Proof.
  intros Hd. unfold format_repr.
  destruct ((decpt <=? -4) || (16 <? decpt)).
  - rewrite !all_chars_append.
    assert (Hm : all_chars numeral_char
                   match digits with
                   | String d (String d' rest) => String d (String "." (String d' rest))
                   | _ => digits
                   end = true).
    { destruct digits as [| d [| d' rest]]; exact Hd. }
    rewrite Hm. simpl.
    destruct (decpt - 1 <? 0); simpl;
      destruct (Z.abs (decpt - 1) <? 10); simpl; apply str_of_int_chars.
  - destruct (decpt <=? 0).
    + rewrite !all_chars_append, all_chars_zeros, Hd. reflexivity.
    + destruct (decpt <? Z.of_nat (String.length digits)).
      * rewrite !all_chars_append, !all_chars_substring by exact Hd. reflexivity.
      * rewrite !all_chars_append, all_chars_zeros, Hd. reflexivity.
Qed.

Lemma str_of_float_chars (x : float) :
  all_chars numeral_char (str_of_float x) = true.
Proof.
  unfold str_of_float.
  destruct (Prim2SF x) as [s | s | | s m e]; try (destruct s; reflexivity);
    try reflexivity.
  destruct (shortest_from 17 (Z.pos m) e (decpt_of (Z.pos m) e) 1) as [c k].
  destruct (strip_zeros 20 c k) as [c' k'].
  rewrite all_chars_append, format_repr_chars by apply str_of_int_chars.
  destruct s; reflexivity.
Qed.

(** [str] of a float never contains a comma. *)
Lemma str_of_float_no_comma (x : float) : has_char "," (str_of_float x) = false.
Proof.
  apply (all_chars_has_char numeral_char); [apply str_of_float_chars | reflexivity].
Qed.

(** ** [_get_location_from_attributes] *)

(** The location string of an entity with float coordinates splits back
    into its two numerals: reversed, as [update] sends it, it is longitude
    then latitude. *)
Theorem location_from_attributes_splits (entity : State.t) (lat lon : float) :
  State.attributes entity !! ATTR_LATITUDE = Some (VFloat lat) ->
  State.attributes entity !! ATTR_LONGITUDE = Some (VFloat lon) ->
  split "," (OpenRouteTravelTimeSensor._get_location_from_attributes entity)
  = [str_of_float lat; str_of_float lon]
  /\ reversed (split "," (OpenRouteTravelTimeSensor._get_location_from_attributes entity))
     = [str_of_float lon; str_of_float lat].
Proof.
  intros Hlat Hlon.
  unfold OpenRouteTravelTimeSensor._get_location_from_attributes, dict_get.
  rewrite Hlat, Hlon. simpl default. simpl str.
  change ("," +:+ str_of_float lon) with (String "," (str_of_float lon)).
  rewrite (split_pair _ _ _ (str_of_float_no_comma lat) (str_of_float_no_comma lon)).
  split; reflexivity.
Qed.

Lemma location_from_attributes_splits_witness :
  reversed (split "," (OpenRouteTravelTimeSensor._get_location_from_attributes phone))
  = ["13.4"; "52.5"].
Proof.
  exact (proj2 (location_from_attributes_splits phone 52.5 13.4 eq_refl eq_refl)).
Defined.

(** ** Classifying a location: [__init__] *)

Lemma split1_cases (s : string) :
  (has_char "." s = false /\ split1 "." s = [s])
  \/ (exists p rest, has_char "." p = false /\ s = p ++ String "." rest
                     /\ split1 "." s = [p; rest]).
Proof.
  induction s as [| c s IH]; simpl.
  - left. split; reflexivity.
  - destruct (Ascii.eqb c ".") eqn:E.
    + right. exists EmptyString, s. apply Ascii.eqb_eq in E. subst c.
      repeat split.
    + destruct IH as [[Hno Hs] | (p & rest & Hno & -> & Hs)]; rewrite Hs.
      * left. rewrite Hno. split; reflexivity.
      * right. exists (String c p), rest. simpl. rewrite E, Hno.
        repeat split.
Qed.

(** A location is taken for an entity reference exactly when it is one of
    the four trackable domains, alone or followed by a point and anything;
    an entity of another domain is taken for a static location. *)
Theorem trackable_iff_domain_prefix (location : string) :
  OpenRouteTravelTimeSensor.is_trackable location = true
  <-> exists domain,
        In domain TRACKABLE_DOMAINS
        /\ (location = domain \/ exists rest, location = domain ++ "." ++ rest).
Proof.
  unfold OpenRouteTravelTimeSensor.is_trackable, str_in. split.
  - intros H. apply existsb_exists in H as (domain & Hin & Heq).
    apply String.eqb_eq in Heq. exists domain. split; [exact Hin |].
    destruct (split1_cases location) as [[_ Hs] | (p & rest & _ & Hl & Hs)];
      rewrite Hs in Heq; simpl in Heq; subst domain.
    + left. reflexivity.
    + right. exists rest. exact Hl.
  - intros (domain & Hin & Hloc). apply existsb_exists. exists domain.
    split; [exact Hin |]. apply String.eqb_eq.
    simpl in Hin.
    destruct Hin as [<- | [<- | [<- | [<- | []]]]];
      destruct Hloc as [-> | [rest ->]]; reflexivity.
Qed.

Lemma split1_head_chars (P : ascii -> bool) (s : string) :
  all_chars P s = true -> all_chars P (List.hd "" (split1 "." s)) = true.
Proof.
  intros H.
  destruct (split1_cases s) as [[_ Hs] | (p & rest & _ & -> & Hs)]; rewrite Hs; simpl.
  - exact H.
  - rewrite all_chars_append in H. apply andb_true_iff in H as [Hp _]. exact Hp.
Qed.

Lemma coordinate_chars_not_trackable (location : string) :
  all_chars coordinate_char location = true ->
  OpenRouteTravelTimeSensor.is_trackable location = false.
Proof.
  intros H. apply (split1_head_chars _ _) in H.
  unfold OpenRouteTravelTimeSensor.is_trackable, str_in.
  apply not_true_is_false. intros Ht.
  apply existsb_exists in Ht as (domain & Hin & Heq).
  apply String.eqb_eq in Heq. rewrite Heq in H. simpl in Hin.
  destruct Hin as [<- | [<- | [<- | [<- | []]]]]; discriminate H.
Qed.

Lemma lat_lon_chars (lat lon : float) :
  all_chars coordinate_char (str_of_float lat ++ "," ++ str_of_float lon) = true.
Proof.
  rewrite !all_chars_append.
  rewrite !(all_chars_weaken numeral_char coordinate_char _
              (λ c Hc, orb_true_intro _ _ (or_introl Hc)) (str_of_float_chars _)).
  reflexivity.
Qed.

(** A string of coordinate characters is never taken for an entity
    reference; in particular no ["lat,lon"] rendered from two floats is. *)
Theorem coordinates_are_static (lat lon : float) :
  (forall location : string,
      all_chars coordinate_char location = true ->
      OpenRouteTravelTimeSensor.is_trackable location = false)
  /\ OpenRouteTravelTimeSensor.is_trackable (str_of_float lat ++ "," ++ str_of_float lon)
     = false.
Proof.
  split.
  - exact coordinate_chars_not_trackable.
  - apply coordinate_chars_not_trackable, lat_lon_chars.
Qed.

Lemma coordinates_are_static_witness :
  OpenRouteTravelTimeSensor.is_trackable "52.5,13.4" = false.
Proof.
  exact (proj1 (coordinates_are_static 0 0) "52.5,13.4" eq_refl).
Defined.

(** ** Polling *)

Lemma async_update_keeps_sensor (hass : HomeAssistant) (client : Client)
    (s s' : OpenRouteTravelTimeSensor.t) (r : outcome unit) (calls : list call) :
  OpenRouteTravelTimeSensor.async_update hass client s = (r, s', calls) ->
  OpenRouteTravelTimeSensor._name s' = OpenRouteTravelTimeSensor._name s
  /\ OpenRouteTravelTimeSensor._unit_of_measurement s'
     = OpenRouteTravelTimeSensor._unit_of_measurement s
  /\ OpenRouteTravelTimeSensor._origin_entity_id s'
     = OpenRouteTravelTimeSensor._origin_entity_id s
  /\ OpenRouteTravelTimeSensor._destination_entity_id s'
     = OpenRouteTravelTimeSensor._destination_entity_id s
  /\ OpenRouteTravelTimeSensor._open_route_data s' = updated client (resolved_data hass s).
Proof.
  rewrite async_update_resolved. unfold updated.
  destruct (OpenRouteTravelTimeData.update client (resolved_data hass s))
    as [[r0 d0] c0].
  intros [= <- <- <-]. repeat split.
Qed.

Lemma polled_configuration (s0 s : OpenRouteTravelTimeSensor.t) :
  polled s0 s ->
  let d0 := OpenRouteTravelTimeSensor._open_route_data s0 in
  let d := OpenRouteTravelTimeSensor._open_route_data s in
  OpenRouteTravelTimeSensor._name s = OpenRouteTravelTimeSensor._name s0
  /\ OpenRouteTravelTimeSensor._unit_of_measurement s
     = OpenRouteTravelTimeSensor._unit_of_measurement s0
  /\ OpenRouteTravelTimeSensor._origin_entity_id s
     = OpenRouteTravelTimeSensor._origin_entity_id s0
  /\ OpenRouteTravelTimeSensor._destination_entity_id s
     = OpenRouteTravelTimeSensor._destination_entity_id s0
  /\ OpenRouteTravelTimeData.travel_mode d = OpenRouteTravelTimeData.travel_mode d0
  /\ OpenRouteTravelTimeData.route_mode d = OpenRouteTravelTimeData.route_mode d0
  /\ OpenRouteTravelTimeData.units d = OpenRouteTravelTimeData.units d0
  /\ (OpenRouteTravelTimeSensor._origin_entity_id s0 = None ->
      OpenRouteTravelTimeData.origin d = OpenRouteTravelTimeData.origin d0)
  /\ (OpenRouteTravelTimeSensor._destination_entity_id s0 = None ->
      OpenRouteTravelTimeData.destination d = OpenRouteTravelTimeData.destination d0).
Proof.
  intros Hp. cbv zeta.
  induction Hp as [| hass client s s' r calls Hp IH Hupd]; [repeat split |].
  destruct IH as (Hn & Hu & Ho & Hd & Htm & Hrm & Hun & Hso & Hsd).
  apply async_update_keeps_sensor in Hupd as (Hn' & Hu' & Ho' & Hd' & Hdata).
  unfold updated in Hdata.
  destruct (OpenRouteTravelTimeData.update client (resolved_data hass s))
    as [[r0 d0] c0] eqn:E.
  simpl in Hdata.
  destruct (update_query_unchanged _ _ _ _ _ E) as (Ko & Kd & Ktm & Krm & Kun & _).
  rewrite Hn', Hu', Ho', Hd', Hdata, Ko, Kd, Ktm, Krm, Kun.
  unfold resolved_data. rewrite Ho, Hd.
  repeat split; try assumption.
  - destruct (OpenRouteTravelTimeSensor._origin_entity_id s0),
             (OpenRouteTravelTimeSensor._destination_entity_id s0); exact Htm.
  - destruct (OpenRouteTravelTimeSensor._origin_entity_id s0),
             (OpenRouteTravelTimeSensor._destination_entity_id s0); exact Hrm.
  - destruct (OpenRouteTravelTimeSensor._origin_entity_id s0),
             (OpenRouteTravelTimeSensor._destination_entity_id s0); exact Hun.
  - intros H0. rewrite H0.
    destruct (OpenRouteTravelTimeSensor._destination_entity_id s0);
      apply Hso, H0.
  - intros H0. rewrite H0.
    destruct (OpenRouteTravelTimeSensor._origin_entity_id s0); apply Hsd, H0.
Qed.

(** Polling never changes what was configured: the name, the unit, which
    endpoints are entity references, travel mode, route mode and units stay
    as they were, and a static origin or destination is never overwritten. *)
Theorem polling_keeps_configuration (s0 s : OpenRouteTravelTimeSensor.t) :
  polled s0 s ->
  let d0 := OpenRouteTravelTimeSensor._open_route_data s0 in
  let d := OpenRouteTravelTimeSensor._open_route_data s in
  OpenRouteTravelTimeSensor._name s = OpenRouteTravelTimeSensor._name s0
  /\ OpenRouteTravelTimeSensor._unit_of_measurement s
     = OpenRouteTravelTimeSensor._unit_of_measurement s0
  /\ OpenRouteTravelTimeSensor._origin_entity_id s
     = OpenRouteTravelTimeSensor._origin_entity_id s0
  /\ OpenRouteTravelTimeSensor._destination_entity_id s
     = OpenRouteTravelTimeSensor._destination_entity_id s0
  /\ OpenRouteTravelTimeData.travel_mode d = OpenRouteTravelTimeData.travel_mode d0
  /\ OpenRouteTravelTimeData.route_mode d = OpenRouteTravelTimeData.route_mode d0
  /\ OpenRouteTravelTimeData.units d = OpenRouteTravelTimeData.units d0
  /\ (OpenRouteTravelTimeSensor._origin_entity_id s0 = None ->
      OpenRouteTravelTimeData.origin d = OpenRouteTravelTimeData.origin d0)
  /\ (OpenRouteTravelTimeSensor._destination_entity_id s0 = None ->
      OpenRouteTravelTimeData.destination d = OpenRouteTravelTimeData.destination d0).
Proof.
  intros Hp. exact (polled_configuration s0 s Hp).
Qed.

Lemma polling_keeps_configuration_witness :
  let s := snd (fst (OpenRouteTravelTimeSensor.async_update
                       no_entities geocoder_down sample_sensor)) in
  OpenRouteTravelTimeSensor._name s = "Commute"
  /\ OpenRouteTravelTimeData.origin (OpenRouteTravelTimeSensor._open_route_data s)
     = Some "52.5,13.4".
Proof.
  destruct (polling_keeps_configuration sample_sensor _
              (polled_update sample_sensor no_entities geocoder_down sample_sensor _
                 (Raise (ClientError "timeout"))
                 (snd (OpenRouteTravelTimeSensor.async_update
                         no_entities geocoder_down sample_sensor))
                 (polled_start sample_sensor) eq_refl))
    as (Hn & _ & _ & _ & _ & _ & _ & Ho & _).
  exact (conj Hn (Ho eq_refl)).
Defined.

(** ** From an entity to the request *)

Lemma located_entity_resolves (hass : HomeAssistant) (entity_id : string)
    (entity : State.t) (lat lon : float) :
  states_get hass entity_id = Some entity ->
  State.attributes entity !! ATTR_LATITUDE = Some (VFloat lat) ->
  State.attributes entity !! ATTR_LONGITUDE = Some (VFloat lon) ->
  OpenRouteTravelTimeSensor._get_location_from_entity hass entity_id
  = Some (str_of_float lat ++ "," ++ str_of_float lon).
Proof.
  intros He Hlat Hlon.
  unfold OpenRouteTravelTimeSensor._get_location_from_entity, has_location,
    OpenRouteTravelTimeSensor._get_location_from_attributes, dict_get.
  rewrite He, Hlat, Hlon. reflexivity.
Qed.

(** A poll of a sensor whose origin is an entity with float coordinates
    stores the entity's ["lat,lon"] as origin and asks for directions to
    [[lon, lat]] of it, in the numerals [str] renders, whatever the entity's
    state says. *)
Theorem tracked_coordinates_are_requested (hass : HomeAssistant) (client : Client)
    (s : OpenRouteTravelTimeSensor.t) (entity_id dest : string)
    (entity : State.t) (lat lon : float) :
  OpenRouteTravelTimeSensor._origin_entity_id s = Some entity_id ->
  OpenRouteTravelTimeSensor._destination_entity_id s = None ->
  OpenRouteTravelTimeData.destination (OpenRouteTravelTimeSensor._open_route_data s)
  = Some dest ->
  states_get hass entity_id = Some entity ->
  State.attributes entity !! ATTR_LATITUDE = Some (VFloat lat) ->
  State.attributes entity !! ATTR_LONGITUDE = Some (VFloat lon) ->
  let d := OpenRouteTravelTimeSensor._open_route_data s in
  let u := OpenRouteTravelTimeSensor.async_update hass client s in
  OpenRouteTravelTimeData.origin
    (OpenRouteTravelTimeSensor._open_route_data (snd (fst u)))
  = Some (str_of_float lat ++ "," ++ str_of_float lon)
  /\ exists rest : list call,
       snd u
       = Directions (reversed (split "," dest), [str_of_float lon; str_of_float lat])
           (OpenRouteTravelTimeData.travel_mode d)
           (OpenRouteTravelTimeData.route_mode d) :: rest.
Proof.
  intros Hoid Hdid Hdest He Hlat Hlon d u. subst d u.
  rewrite async_update_resolved.
  assert (Hres : resolved_data hass s
                 = OpenRouteTravelTimeData.with_origin
                     (Some (str_of_float lat ++ "," ++ str_of_float lon))
                     (OpenRouteTravelTimeSensor._open_route_data s)).
  { unfold resolved_data.
    rewrite Hoid, Hdid, (located_entity_resolves _ _ _ _ _ He Hlat Hlon).
    reflexivity. }
  rewrite Hres.
  destruct (OpenRouteTravelTimeData.update client _) as [[r d'] calls] eqn:E.
  simpl. split.
  - destruct (update_query_unchanged _ _ _ _ _ E) as (Ho & _). exact Ho.
  - apply update_calls_shape in E. simpl in E. rewrite Hdest in E.
    destruct E as (rest & -> & _). exists rest.
    unfold directions_call, coords_of. simpl.
    change ("," +:+ str_of_float lon) with (String "," (str_of_float lon)).
    rewrite (split_pair _ _ _ (str_of_float_no_comma lat) (str_of_float_no_comma lon)).
    reflexivity.
Qed.

Lemma tracked_coordinates_are_requested_witness :
  let u := OpenRouteTravelTimeSensor.async_update sample_hass service_up
             tracking_sensor in
  OpenRouteTravelTimeData.origin
    (OpenRouteTravelTimeSensor._open_route_data (snd (fst u))) = Some "52.5,13.4"
  /\ exists rest : list call,
       snd u = Directions (["11.5"; "48.1"], ["13.4"; "52.5"]) "driving-car" "fastest"
               :: rest.
Proof.
  exact (tracked_coordinates_are_requested sample_hass service_up tracking_sensor
           "device_tracker.phone" "48.1,11.5" phone 52.5 13.4
           eq_refl eq_refl eq_refl eq_refl eq_refl eq_refl).
Defined.

(** An entity that is found but has no coordinates and is in no zone with
    coordinates: a [sensor.] entity is resolved to its raw state, any other
    entity to nothing, and the poll of a sensor that tracks it as origin then
    sends no request and leaves the result as it was. *)
Theorem entity_without_location (hass : HomeAssistant) (client : Client)
    (s : OpenRouteTravelTimeSensor.t) (entity_id : string) (entity : State.t) :
  states_get hass entity_id = Some entity ->
  has_location (Some entity) = false ->
  has_location (states_get hass ("zone." ++ State.state entity)) = false ->
  (startswith "sensor." entity_id = true ->
   OpenRouteTravelTimeSensor._get_location_from_entity hass entity_id
   = Some (State.state entity))
  /\ (startswith "sensor." entity_id = false ->
      OpenRouteTravelTimeSensor._get_location_from_entity hass entity_id = None
      /\ (OpenRouteTravelTimeSensor._origin_entity_id s = Some entity_id ->
          exists s',
            OpenRouteTravelTimeSensor.async_update hass client s = (Ok tt, s', [])
            /\ same_result (OpenRouteTravelTimeSensor._open_route_data s)
                 (OpenRouteTravelTimeSensor._open_route_data s'))).
Proof.
  intros He Hown Hzone.
  assert (Hloc : OpenRouteTravelTimeSensor._get_location_from_entity hass entity_id
                 = if startswith "sensor." entity_id then Some (State.state entity)
                   else None).
  { unfold OpenRouteTravelTimeSensor._get_location_from_entity.
    rewrite He, Hown, Hzone. reflexivity. }
  split; intros Hs; rewrite Hs in Hloc; [exact Hloc |].
  split; [exact Hloc |]. intros Hoid.
  rewrite async_update_resolved.
  assert (Ho : OpenRouteTravelTimeData.origin (resolved_data hass s) = None).
  { unfold resolved_data. rewrite Hoid, Hloc.
    destruct (OpenRouteTravelTimeSensor._destination_entity_id s); reflexivity. }
  rewrite (update_origin_unset client _ Ho). eexists. split; [reflexivity |].
  simpl. unfold resolved_data. rewrite Hoid.
  destruct (OpenRouteTravelTimeSensor._destination_entity_id s); repeat split.
Qed.

Lemma entity_without_location_witness :
  OpenRouteTravelTimeSensor._get_location_from_entity away_hass "sensor.next_appointment"
  = Some "48.1,11.5"
  /\ OpenRouteTravelTimeSensor._get_location_from_entity away_hass "device_tracker.phone"
     = None
  /\ snd (OpenRouteTravelTimeSensor.async_update away_hass service_up tracking_sensor)
     = [].
Proof.
  destruct (entity_without_location away_hass service_up tracking_sensor
              "sensor.next_appointment" address_sensor eq_refl eq_refl eq_refl)
    as [Hsensor _].
  destruct (entity_without_location away_hass service_up tracking_sensor
              "device_tracker.phone" phone_away eq_refl eq_refl eq_refl)
    as [_ Hother].
  destruct (Hother eq_refl) as [Hnone Hpoll].
  destruct (Hpoll eq_refl) as (s' & Hupd & _).
  split; [exact (Hsensor eq_refl) |]. split; [exact Hnone |].
  rewrite Hupd. reflexivity.
Defined.

(** ** The schema: what an accepted configuration looks like *)

Lemma with_defaults_lookup (schema : vol.dict) (data : gmap string value) (k : string) :
  vol.with_defaults schema data !! k
  = match data !! k with
    | Some v => Some v
    | None => default_of schema k
    end.
Proof.
  unfold vol.with_defaults. revert data.
  induction schema as [| [m validate] schema IH]; intros data; simpl.
  - destruct (data !! k); reflexivity.
  - rewrite IH. destruct m as [k' | k' [v' |] | k' g | k' g]; try reflexivity.
    unfold vol.contains, vol.is_some.
    destruct (String.eqb_spec k' k) as [-> | Hne].
    + destruct (data !! k) as [v |] eqn:E; [rewrite E; reflexivity |].
      rewrite lookup_insert_eq. reflexivity.
    + destruct (data !! k') as [vk |].
      * reflexivity.
      * rewrite lookup_insert_ne by exact Hne. reflexivity.
Qed.

Lemma values_pass_lookup (schema : vol.dict) (data : gmap string value)
    (k : string) (v : value) :
  vol.values_pass schema data = true ->
  data !! k = Some v ->
  exists v', vol.check schema k v = Some v'.
Proof.
  unfold vol.values_pass. intros Hall Hk.
  rewrite forallb_forall in Hall.
  specialize (Hall (k, v)). simpl in Hall.
  assert (Hin : In (k, v) (map_to_list data))
    by (apply list_elem_of_In, elem_of_map_to_list, Hk).
  specialize (Hall Hin). destruct (vol.check schema k v) as [v' |]; [eauto | discriminate].
Qed.

Lemma validate_dict_Some (schema : vol.dict) (data out : gmap string value) :
  vol.validate_dict schema data = Some out ->
  vol.exclusion_broken schema data = false
  /\ vol.inclusion_broken schema data = false
  /\ vol.values_pass schema (vol.with_defaults schema data) = true
  /\ vol.required_present schema (vol.with_defaults schema data) = true
  /\ out = map_imap (vol.check schema) (vol.with_defaults schema data).
Proof.
  unfold vol.validate_dict, vol.validate_mapping.
  destruct (vol.exclusion_broken schema data); [discriminate |].
  destruct (vol.inclusion_broken schema data); [discriminate |].
  destruct (vol.values_pass _ _); [| discriminate].
  destruct (vol.required_present _ _); [| discriminate].
  intros [= <-]. repeat split.
Qed.

(** The validated value of a key: that of the configuration or of the
    default, passed through the validator of the key. *)
Lemma validated_lookup (schema : vol.dict) (data out : gmap string value) (k : string) :
  vol.validate_dict schema data = Some out ->
  match vol.with_defaults schema data !! k with
  | Some v => exists v', vol.check schema k v = Some v' /\ out !! k = Some v'
  | None => out !! k = None
  end.
Proof.
  intros H. apply validate_dict_Some in H as (_ & _ & Hpass & _ & ->).
  rewrite map_lookup_imap.
  destruct (vol.with_defaults schema data !! k) as [v |] eqn:E; [| reflexivity].
  destruct (values_pass_lookup _ _ _ _ Hpass E) as [v' Hv'].
  exists v'. split; [exact Hv' |]. simpl. exact Hv'.
Qed.

Lemma check_key_in_schema (schema : vol.dict) (k : string) (v v' : value) :
  vol.check schema k v = Some v' ->
  In k (List.map (λ kv, vol.schema_of (fst kv)) schema).
Proof.
  unfold vol.check, vol.lookup_key.
  destruct (List.find _ schema) as [[m validate] |] eqn:E; [| discriminate].
  intros _. apply List.find_some in E as [Hin Heq]. simpl in Heq.
  apply String.eqb_eq in Heq. subst k.
  apply (List.in_map (λ kv, vol.schema_of (fst kv)) _ _ Hin).
Qed.

Lemma platform_schema_accepted (cv : config_validation) (config out : gmap string value) :
  PLATFORM_SCHEMA cv config = Some out ->
  vol.validate_dict (PLATFORM_SCHEMA_DICT cv) config = Some out.
Proof.
  unfold PLATFORM_SCHEMA, has_at_least_one_key.
  destruct (existsb (vol.contains config)
              [CONF_DESTINATION_LATITUDE; CONF_DESTINATION_ENTITY_ID]);
    cbn [mbind option_bind]; [| intros E; discriminate E].
  destruct (existsb (vol.contains config)
              [CONF_ORIGIN_LATITUDE; CONF_ORIGIN_ENTITY_ID]);
    cbn [mbind option_bind]; [| intros E; discriminate E].
  auto.
Qed.

Lemma in_checked (container : list string) (v v' : value) :
  vol.In container v = Some v' ->
  exists s, v = VStr s /\ v' = VStr s /\ In s container.
Proof.
  unfold vol.In. destruct v as [| b | z | x | s]; try discriminate.
  destruct (str_in s container) eqn:E; [| discriminate].
  intros [= <-]. exists s. repeat split.
  unfold str_in in E. apply existsb_exists in E as (s' & Hin & Heq).
  apply String.eqb_eq in Heq. subst s'. exact Hin.
Qed.

(** The validators the schema gives the keys the setup reads. *)
Lemma platform_schema_checks (cv : config_validation) (v : value) :
  vol.check (PLATFORM_SCHEMA_DICT cv) CONF_MODE v = vol.In TRAVEL_MODE v
  /\ vol.check (PLATFORM_SCHEMA_DICT cv) CONF_ROUTE_MODE v = vol.In ROUTE_MODE v
  /\ vol.check (PLATFORM_SCHEMA_DICT cv) CONF_UNIT_SYSTEM v = vol.In UNITS v
  /\ vol.check (PLATFORM_SCHEMA_DICT cv) CONF_NAME v = cv_string cv v
  /\ vol.check (PLATFORM_SCHEMA_DICT cv) CONF_API_KEY v = cv_string cv v
  /\ vol.check (PLATFORM_SCHEMA_DICT cv) CONF_ORIGIN_LATITUDE v = cv_latitude cv v
  /\ vol.check (PLATFORM_SCHEMA_DICT cv) CONF_ORIGIN_LONGITUDE v = cv_longitude cv v
  /\ vol.check (PLATFORM_SCHEMA_DICT cv) CONF_ORIGIN_ENTITY_ID v = cv_entity_id cv v
  /\ vol.check (PLATFORM_SCHEMA_DICT cv) CONF_DESTINATION_LATITUDE v = cv_latitude cv v
  /\ vol.check (PLATFORM_SCHEMA_DICT cv) CONF_DESTINATION_LONGITUDE v
     = cv_longitude cv v
  /\ vol.check (PLATFORM_SCHEMA_DICT cv) CONF_DESTINATION_ENTITY_ID v
     = cv_entity_id cv v.
Proof. repeat split. Qed.

(** An accepted configuration has no key outside the schema and keeps all
    of its keys; validated, it carries the platform and the API key, a name,
    a travel mode among the three and a route mode among the two (the
    defaults when the configuration gives none), and a unit system only if
    the configuration gives one of the two. *)
Theorem accepted_configuration (cv : config_validation) (config out : gmap string value) :
  PLATFORM_SCHEMA cv config = Some out ->
  (forall k, is_Some (config !! k) -> In k PLATFORM_KEYS /\ is_Some (out !! k))
  /\ is_Some (out !! "platform")
  /\ is_Some (out !! CONF_API_KEY)
  /\ is_Some (out !! CONF_NAME)
  /\ (exists mode, out !! CONF_MODE = Some (VStr mode) /\ In mode TRAVEL_MODE)
  /\ (exists mode, out !! CONF_ROUTE_MODE = Some (VStr mode) /\ In mode ROUTE_MODE)
  /\ (match out !! CONF_UNIT_SYSTEM with
      | Some v => is_Some (config !! CONF_UNIT_SYSTEM)
                  /\ exists units, v = VStr units /\ In units UNITS
      | None => True
      end).
Proof.
  intros H. apply platform_schema_accepted in H.
  pose proof (validated_lookup _ _ _ "platform" H) as Hplatform.
  pose proof (validated_lookup _ _ _ CONF_API_KEY H) as Hkey.
  pose proof (validated_lookup _ _ _ CONF_NAME H) as Hname.
  pose proof (validated_lookup _ _ _ CONF_MODE H) as Hmode.
  pose proof (validated_lookup _ _ _ CONF_ROUTE_MODE H) as Hroute.
  pose proof (validated_lookup _ _ _ CONF_UNIT_SYSTEM H) as Hunits.
  pose proof (validate_dict_Some _ _ _ H) as (_ & _ & _ & Hreq & _).
  split; [| split; [| split; [| split; [| split; [| split]]]]].
  - intros k [v Hk].
    pose proof (validated_lookup _ _ _ k H) as Hlook.
    rewrite with_defaults_lookup, Hk in Hlook.
    destruct Hlook as (v' & Hcheck & Hout). split; [| exists v'; exact Hout].
    apply check_key_in_schema in Hcheck.
    replace PLATFORM_KEYS
      with (List.map (λ kv, vol.schema_of (fst kv)) (PLATFORM_SCHEMA_DICT cv))
      by reflexivity.
    exact Hcheck.
  - unfold vol.required_present in Hreq. rewrite forallb_forall in Hreq.
    specialize (Hreq (vol.Required "platform", cv_string cv) (or_introl eq_refl)).
    cbn [fst vol.is_required vol.schema_of negb orb] in Hreq.
    unfold vol.contains, vol.is_some in Hreq.
    destruct (vol.with_defaults _ config !! "platform") as [v |];
      [| discriminate Hreq].
    destruct Hplatform as (v' & _ & Hout). exists v'. exact Hout.
  - unfold vol.required_present in Hreq. rewrite forallb_forall in Hreq.
    specialize (Hreq (vol.Required CONF_API_KEY, cv_string cv)
                  (or_intror (or_intror (or_intror (or_introl eq_refl))))).
    cbn [fst vol.is_required vol.schema_of negb orb] in Hreq.
    unfold vol.contains, vol.is_some in Hreq.
    destruct (vol.with_defaults _ config !! CONF_API_KEY) as [v |];
      [| discriminate Hreq].
    destruct Hkey as (v' & _ & Hout). exists v'. exact Hout.
  - rewrite with_defaults_lookup in Hname.
    destruct (config !! CONF_NAME); destruct Hname as (v' & _ & Hout);
      exists v'; exact Hout.
  - rewrite with_defaults_lookup in Hmode.
    destruct (config !! CONF_MODE); destruct Hmode as (v' & Hcheck & Hout);
      rewrite (proj1 (platform_schema_checks cv _)) in Hcheck;
      apply in_checked in Hcheck as (s & _ & -> & Hin); exists s;
      split; [exact Hout | exact Hin | exact Hout | exact Hin].
  - rewrite with_defaults_lookup in Hroute.
    destruct (config !! CONF_ROUTE_MODE); destruct Hroute as (v' & Hcheck & Hout);
      rewrite (proj1 (proj2 (platform_schema_checks cv _))) in Hcheck;
      apply in_checked in Hcheck as (s & _ & -> & Hin); exists s;
      split; [exact Hout | exact Hin | exact Hout | exact Hin].
  - rewrite with_defaults_lookup in Hunits.
    destruct (config !! CONF_UNIT_SYSTEM) as [v |].
    + destruct Hunits as (v' & Hcheck & Hout).
      rewrite (proj1 (proj2 (proj2 (platform_schema_checks cv _)))) in Hcheck.
      apply in_checked in Hcheck as (s & _ & -> & Hin). rewrite Hout.
      split; [exists v; reflexivity | exists s; split; [reflexivity | exact Hin]].
    + change (default_of (PLATFORM_SCHEMA_DICT cv) CONF_UNIT_SYSTEM)
        with (@None value) in Hunits.
      rewrite Hunits. exact I.
Qed.

Lemma sample_config_accepted : is_Some (PLATFORM_SCHEMA cv_strict sample_config).
Proof.
  unfold PLATFORM_SCHEMA.
  replace (has_at_least_one_key
             [CONF_DESTINATION_LATITUDE; CONF_DESTINATION_ENTITY_ID] sample_config)
    with (Some sample_config) by reflexivity.
  cbn [mbind option_bind].
  replace (has_at_least_one_key
             [CONF_ORIGIN_LATITUDE; CONF_ORIGIN_ENTITY_ID] sample_config)
    with (Some sample_config) by reflexivity.
  cbn [mbind option_bind].
  apply is_Some_validate_dict; vm_compute; reflexivity.
Qed.

Lemma accepted_configuration_witness :
  exists out : gmap string value,
    PLATFORM_SCHEMA cv_strict sample_config = Some out
    /\ (exists mode, out !! CONF_MODE = Some (VStr mode) /\ In mode TRAVEL_MODE)
    /\ is_Some (out !! CONF_API_KEY).
Proof.
  destruct sample_config_accepted as [out E].
  exists out. split; [exact E |].
  destruct (accepted_configuration cv_strict sample_config out E)
    as (_ & _ & Hkey & _ & Hmode & _).
  exact (conj Hmode Hkey).
Defined.

(** ** [async_setup_platform] *)

Lemma configured_location_coordinates (config : gmap string value)
    (latitude longitude entity_id : string) (lat lon : float) :
  config !! latitude = Some (VFloat lat) ->
  config !! longitude = Some (VFloat lon) ->
  configured_location config latitude longitude entity_id
  = Ok (VStr (str_of_float lat ++ "," ++ str_of_float lon)).
Proof.
  intros Hlat Hlon. unfold configured_location, config_getitem, dict_get.
  rewrite Hlat, Hlon. reflexivity.
Qed.

Lemma configured_location_entity (config : gmap string value)
    (latitude longitude entity_id : string) (v : value) :
  config !! latitude = None ->
  config !! entity_id = Some v ->
  configured_location config latitude longitude entity_id = Ok v.
Proof.
  intros Hlat Hent. unfold configured_location, config_getitem, dict_get.
  rewrite Hlat, Hent. reflexivity.
Qed.


(** The sensor the setup builds, when it returns. *)
Lemma setup_returns (hass_units : string) (registry : list OpenRouteTravelTimeSensor.t)
    (config : gmap string value) (st : Setup) :
  async_setup_platform hass_units registry config = Some (Ok st) ->
  exists name origin destination travel_mode route_mode units,
    configured_location config CONF_ORIGIN_LATITUDE CONF_ORIGIN_LONGITUDE
      CONF_ORIGIN_ENTITY_ID = Ok (VStr origin)
    /\ configured_location config CONF_DESTINATION_LATITUDE
         CONF_DESTINATION_LONGITUDE CONF_DESTINATION_ENTITY_ID = Ok (VStr destination)
    /\ st = {| setup_registry :=
                 registry ++ [new_sensor name origin destination travel_mode
                                route_mode units];
               setup_entities :=
                 [new_sensor name origin destination travel_mode route_mode units];
               setup_update_before_add := true |}.
Proof.
  unfold async_setup_platform.
  destruct (config_getitem config CONF_API_KEY) as [api_key | e];
    cbn [mbind outcome_bind]; [| discriminate].
  destruct (configured_location config CONF_ORIGIN_LATITUDE _ _) as [origin | e];
    cbn [mbind outcome_bind]; [| discriminate].
  destruct (configured_location config CONF_DESTINATION_LATITUDE _ _)
    as [destination | e];
    cbn [mbind outcome_bind]; [| discriminate].
  destruct (openrouteservice_Client api_key) as [[] | e];
    cbn [mbind outcome_bind mret outcome_ret]; [| discriminate].
  destruct (as_str origin) as [o |] eqn:Eo; [| discriminate].
  destruct (as_str destination) as [d |] eqn:Ed; [| discriminate].
  destruct (as_str (dict_get config CONF_MODE)) as [tm |]; [| discriminate].
  destruct (as_str (dict_get config CONF_ROUTE_MODE)) as [rm |]; [| discriminate].
  destruct (as_str (dict_get config CONF_NAME)) as [name |]; [| discriminate].
  destruct (as_str (default _ (config !! CONF_UNIT_SYSTEM))) as [units |];
    [| discriminate].
  intros [= <-]. exists name, o, d, tm, rm, units.
  destruct origin; try discriminate Eo. destruct destination; try discriminate Ed.
  injection Eo as ->. injection Ed as ->. repeat split.
Qed.

Lemma new_sensor_origin (name origin destination travel_mode route_mode units : string) :
  let s := new_sensor name origin destination travel_mode route_mode units in
  if OpenRouteTravelTimeSensor.is_trackable origin
  then OpenRouteTravelTimeSensor._origin_entity_id s = Some origin
       /\ OpenRouteTravelTimeData.origin (OpenRouteTravelTimeSensor._open_route_data s)
          = None
  else OpenRouteTravelTimeSensor._origin_entity_id s = None
       /\ OpenRouteTravelTimeData.origin (OpenRouteTravelTimeSensor._open_route_data s)
          = Some origin.
Proof.
  unfold new_sensor, OpenRouteTravelTimeSensor.__init__.
  destruct (OpenRouteTravelTimeSensor.is_trackable origin),
           (OpenRouteTravelTimeSensor.is_trackable destination); split; reflexivity.
Qed.

Lemma new_sensor_destination
    (name origin destination travel_mode route_mode units : string) :
  let s := new_sensor name origin destination travel_mode route_mode units in
  if OpenRouteTravelTimeSensor.is_trackable destination
  then OpenRouteTravelTimeSensor._destination_entity_id s = Some destination
       /\ OpenRouteTravelTimeData.destination
            (OpenRouteTravelTimeSensor._open_route_data s) = None
  else OpenRouteTravelTimeSensor._destination_entity_id s = None
       /\ OpenRouteTravelTimeData.destination
            (OpenRouteTravelTimeSensor._open_route_data s) = Some destination.
Proof.
  unfold new_sensor, OpenRouteTravelTimeSensor.__init__.
  destruct (OpenRouteTravelTimeSensor.is_trackable origin),
           (OpenRouteTravelTimeSensor.is_trackable destination); split; reflexivity.
Qed.



(** Coordinates come first: an endpoint configured with a float latitude and
    longitude is set up as the static location ["lat,lon"], whether or not an
    entity id is configured beside them.  The setup registers one new sensor
    and adds it with an update before the add. *)
Theorem setup_coordinates_first (hass_units : string)
    (registry : list OpenRouteTravelTimeSensor.t) (config : gmap string value)
    (st : Setup) :
  async_setup_platform hass_units registry config = Some (Ok st) ->
  exists sensor,
    setup_entities st = [sensor]
    /\ setup_registry st = (registry ++ [sensor])%list
    /\ setup_update_before_add st = true
    /\ (forall lat lon,
          config !! CONF_ORIGIN_LATITUDE = Some (VFloat lat) ->
          config !! CONF_ORIGIN_LONGITUDE = Some (VFloat lon) ->
          OpenRouteTravelTimeSensor._origin_entity_id sensor = None
          /\ OpenRouteTravelTimeData.origin
               (OpenRouteTravelTimeSensor._open_route_data sensor)
             = Some (str_of_float lat ++ "," ++ str_of_float lon))
    /\ (forall lat lon,
          config !! CONF_DESTINATION_LATITUDE = Some (VFloat lat) ->
          config !! CONF_DESTINATION_LONGITUDE = Some (VFloat lon) ->
          OpenRouteTravelTimeSensor._destination_entity_id sensor = None
          /\ OpenRouteTravelTimeData.destination
               (OpenRouteTravelTimeSensor._open_route_data sensor)
             = Some (str_of_float lat ++ "," ++ str_of_float lon)).
Proof.
  intros H.
  apply setup_returns in H
    as (name & origin & destination & tm & rm & units & Ho & Hd & ->).
  eexists. split; [reflexivity |]. split; [reflexivity |]. split; [reflexivity |].
  split; intros lat lon Hlat Hlon.
  - rewrite (configured_location_coordinates _ _ _ _ _ _ Hlat Hlon) in Ho.
    injection Ho as <-.
    pose proof (new_sensor_origin name (str_of_float lat ++ "," ++ str_of_float lon)
                  destination tm rm units) as Hs.
    cbv zeta in Hs.
    rewrite (coordinate_chars_not_trackable _ (lat_lon_chars lat lon)) in Hs.
    exact Hs.
  - rewrite (configured_location_coordinates _ _ _ _ _ _ Hlat Hlon) in Hd.
    injection Hd as <-.
    pose proof (new_sensor_destination name origin
                  (str_of_float lat ++ "," ++ str_of_float lon) tm rm units) as Hs.
    cbv zeta in Hs.
    rewrite (coordinate_chars_not_trackable _ (lat_lon_chars lat lon)) in Hs.
    exact Hs.
Qed.

Lemma setup_coordinates_first_witness :
  async_setup_platform "metric" [] config_with_both_validated = Some (Ok setup_with_both)
  /\ exists sensor,
       setup_entities setup_with_both = [sensor]
       /\ OpenRouteTravelTimeSensor._origin_entity_id sensor = None
       /\ OpenRouteTravelTimeData.origin
            (OpenRouteTravelTimeSensor._open_route_data sensor)
          = Some (str_of_float 52.5 ++ "," ++ str_of_float 13.4).
Proof.
  assert (E : async_setup_platform "metric" [] config_with_both_validated
              = Some (Ok setup_with_both)) by (vm_compute; reflexivity).
  split; [exact E |].
  destruct (setup_coordinates_first "metric" [] config_with_both_validated
              setup_with_both E) as (sensor & He & _ & _ & Ho & _).
  exists sensor. split; [exact He |].
  apply (Ho 52.5%float 13.4%float); vm_compute; reflexivity.
Defined.

(** An endpoint configured by an entity id alone is tracked when the id is
    of a trackable domain; an id of any other domain is set up as a static
    location, the id itself standing for the coordinates. *)
Theorem setup_entity_reference (hass_units : string)
    (registry : list OpenRouteTravelTimeSensor.t) (config : gmap string value)
    (st : Setup) :
  async_setup_platform hass_units registry config = Some (Ok st) ->
  exists sensor,
    setup_entities st = [sensor]
    /\ (forall entity_id,
          config !! CONF_ORIGIN_LATITUDE = None ->
          config !! CONF_ORIGIN_ENTITY_ID = Some (VStr entity_id) ->
          if OpenRouteTravelTimeSensor.is_trackable entity_id
          then OpenRouteTravelTimeSensor._origin_entity_id sensor = Some entity_id
               /\ OpenRouteTravelTimeData.origin
                    (OpenRouteTravelTimeSensor._open_route_data sensor) = None
          else OpenRouteTravelTimeSensor._origin_entity_id sensor = None
               /\ OpenRouteTravelTimeData.origin
                    (OpenRouteTravelTimeSensor._open_route_data sensor)
                  = Some entity_id)
    /\ (forall entity_id,
          config !! CONF_DESTINATION_LATITUDE = None ->
          config !! CONF_DESTINATION_ENTITY_ID = Some (VStr entity_id) ->
          if OpenRouteTravelTimeSensor.is_trackable entity_id
          then OpenRouteTravelTimeSensor._destination_entity_id sensor = Some entity_id
               /\ OpenRouteTravelTimeData.destination
                    (OpenRouteTravelTimeSensor._open_route_data sensor) = None
          else OpenRouteTravelTimeSensor._destination_entity_id sensor = None
               /\ OpenRouteTravelTimeData.destination
                    (OpenRouteTravelTimeSensor._open_route_data sensor)
                  = Some entity_id).
Proof.
  intros H.
  apply setup_returns in H
    as (name & origin & destination & tm & rm & units & Ho & Hd & ->).
  eexists. split; [reflexivity |].
  split; intros entity_id Hlat Hent.
  - rewrite (configured_location_entity _ _ _ _ _ Hlat Hent) in Ho.
    injection Ho as <-.
    exact (new_sensor_origin name entity_id destination tm rm units).
  - rewrite (configured_location_entity _ _ _ _ _ Hlat Hent) in Hd.
    injection Hd as <-.
    exact (new_sensor_destination name origin entity_id tm rm units).
Qed.

Lemma setup_entity_reference_witness :
  async_setup_platform "metric" [] config_untracked = Some (Ok setup_untracked)
  /\ OpenRouteTravelTimeSensor.is_trackable "input_text.address" = false
  /\ OpenRouteTravelTimeSensor.is_trackable "zone.work" = true
  /\ exists sensor,
       setup_entities setup_untracked = [sensor]
       /\ OpenRouteTravelTimeData.origin
            (OpenRouteTravelTimeSensor._open_route_data sensor)
          = Some "input_text.address"
       /\ OpenRouteTravelTimeSensor._destination_entity_id sensor = Some "zone.work".
Proof.
  assert (E : async_setup_platform "metric" [] config_untracked
              = Some (Ok setup_untracked)) by (vm_compute; reflexivity).
  split; [exact E |]. split; [reflexivity |]. split; [reflexivity |].
  destruct (setup_entity_reference "metric" [] config_untracked setup_untracked E)
    as (sensor & He & Ho & Hd).
  exists sensor. split; [exact He |]. split.
  - refine (proj2 (Ho "input_text.address" _ _)); vm_compute; reflexivity.
  - refine (proj1 (Hd "zone.work" _ _)); vm_compute; reflexivity.
Defined.


(** ** The schema and the setup together *)

(** An endpoint of a validated configuration: the schema leaves a latitude
    with its longitude, or an entity id, and typed validators make them
    floats and a [str]. *)
Lemma validated_endpoint (cv : config_validation) (config out : gmap string value)
    (latitude longitude entity_id : string) :
  typed_validators cv ->
  vol.validate_dict (PLATFORM_SCHEMA_DICT cv) config = Some out ->
  (forall v, vol.check (PLATFORM_SCHEMA_DICT cv) latitude v = cv_latitude cv v) ->
  (forall v, vol.check (PLATFORM_SCHEMA_DICT cv) longitude v = cv_longitude cv v) ->
  (forall v, vol.check (PLATFORM_SCHEMA_DICT cv) entity_id v = cv_entity_id cv v) ->
  default_of (PLATFORM_SCHEMA_DICT cv) latitude = None ->
  default_of (PLATFORM_SCHEMA_DICT cv) longitude = None ->
  default_of (PLATFORM_SCHEMA_DICT cv) entity_id = None ->
  vol.contains config latitude || vol.contains config entity_id = true ->
  vol.contains config latitude = vol.contains config longitude ->
  exists location,
    configured_location out latitude longitude entity_id = Ok (VStr location).
Proof.
  intros (Tlat & Tlon & Tent & _) H Clat Clon Cent Dlat Dlon Dent Hone Hpair.
  pose proof (validated_lookup _ _ _ latitude H) as Hlat.
  pose proof (validated_lookup _ _ _ longitude H) as Hlon.
  pose proof (validated_lookup _ _ _ entity_id H) as Hent.
  rewrite with_defaults_lookup, Dlat in Hlat.
  rewrite with_defaults_lookup, Dlon in Hlon.
  rewrite with_defaults_lookup, Dent in Hent.
  unfold vol.contains, vol.is_some in Hone, Hpair.
  unfold configured_location, dict_get, config_getitem, getitem.
  destruct (config !! latitude) as [vlat |].
  - destruct (config !! longitude) as [vlon |]; [| discriminate Hpair].
    destruct Hlat as (vlat' & Hc & ->). rewrite Clat in Hc.
    destruct (Tlat _ _ Hc) as [x ->].
    destruct Hlon as (vlon' & Hc' & ->). rewrite Clon in Hc'.
    destruct (Tlon _ _ Hc') as [y ->].
    eexists. reflexivity.
  - rewrite Hlat. destruct (config !! entity_id) as [vent |]; [| discriminate Hone].
    destruct Hent as (vent' & Hc & ->). rewrite Cent in Hc.
    destruct (Tent _ _ Hc) as [s ->].
    eexists. reflexivity.
Qed.

(** The schema rules out every way [async_setup_platform] can fail: on a
    configuration the schema has validated, with validators typed like those
    of [config_validation], the setup raises no [KeyError] and builds its
    sensor. *)
Theorem validated_configuration_sets_up (cv : config_validation) (hass_units : string)
    (registry : list OpenRouteTravelTimeSensor.t) (config out : gmap string value) :
  typed_validators cv ->
  PLATFORM_SCHEMA cv config = Some out ->
  exists sensor,
    async_setup_platform hass_units registry out
    = Some (Ok {| setup_registry := registry ++ [sensor];
                  setup_entities := [sensor];
                  setup_update_before_add := true |}).
Proof.
  intros T Hacc.
  pose proof (schema_accepted_shape cv config out Hacc) as (Hd1 & Ho1 & Hd2 & Ho2).
  apply platform_schema_accepted in Hacc as H.
  pose proof (platform_schema_checks cv) as C.
  destruct (validated_endpoint cv config out CONF_ORIGIN_LATITUDE CONF_ORIGIN_LONGITUDE
              CONF_ORIGIN_ENTITY_ID T H) as [origin Eo];
    [intros v; apply (C v) .. | reflexivity | reflexivity | reflexivity
    | exact Ho1 | exact Ho2 |].
  destruct (validated_endpoint cv config out CONF_DESTINATION_LATITUDE
              CONF_DESTINATION_LONGITUDE CONF_DESTINATION_ENTITY_ID T H)
    as [destination Ed];
    [intros v; apply (C v) .. | reflexivity | reflexivity | reflexivity
    | exact Hd1 | exact Hd2 |].
  destruct T as (_ & _ & _ & Tstr).
  pose proof (validated_lookup _ _ _ CONF_API_KEY H) as Hkey.
  pose proof (validated_lookup _ _ _ CONF_NAME H) as Hname.
  pose proof (validated_lookup _ _ _ CONF_MODE H) as Hmode.
  pose proof (validated_lookup _ _ _ CONF_ROUTE_MODE H) as Hroute.
  pose proof (validated_lookup _ _ _ CONF_UNIT_SYSTEM H) as Hunits.
  pose proof (validate_dict_Some _ _ _ H) as (_ & _ & _ & Hreq & _).
  unfold vol.required_present in Hreq. rewrite forallb_forall in Hreq.
  specialize (Hreq (vol.Required CONF_API_KEY, cv_string cv)
                (or_intror (or_intror (or_intror (or_introl eq_refl))))).
  cbn [fst vol.is_required vol.schema_of negb orb] in Hreq.
  unfold vol.contains, vol.is_some in Hreq.
  destruct (vol.with_defaults _ config !! CONF_API_KEY) as [vkey |];
    [| discriminate Hreq].
  destruct Hkey as (vkey' & Hckey & Hkey).
  rewrite (proj1 (proj2 (proj2 (proj2 (proj2 (C _)))))) in Hckey.
  destruct (Tstr _ _ Hckey) as [key Ekey].
  assert (Ename : exists name, out !! CONF_NAME = Some (VStr name)).
  { rewrite with_defaults_lookup in Hname.
    destruct (config !! CONF_NAME); destruct Hname as (v' & Hc & Hout);
      rewrite (proj1 (proj2 (proj2 (proj2 (C _))))) in Hc;
      destruct (Tstr _ _ Hc) as [s ->]; exists s; exact Hout. }
  assert (Emode : exists mode, out !! CONF_MODE = Some (VStr mode)).
  { rewrite with_defaults_lookup in Hmode.
    destruct (config !! CONF_MODE); destruct Hmode as (v' & Hc & Hout);
      rewrite (proj1 (C _)) in Hc;
      apply in_checked in Hc as (s & _ & -> & _); exists s; exact Hout. }
  assert (Eroute : exists mode, out !! CONF_ROUTE_MODE = Some (VStr mode)).
  { rewrite with_defaults_lookup in Hroute.
    destruct (config !! CONF_ROUTE_MODE); destruct Hroute as (v' & Hc & Hout);
      rewrite (proj1 (proj2 (C _))) in Hc;
      apply in_checked in Hc as (s & _ & -> & _); exists s; exact Hout. }
  assert (Eunits : exists units,
             default (VStr hass_units) (out !! CONF_UNIT_SYSTEM) = VStr units).
  { rewrite with_defaults_lookup in Hunits.
    destruct (config !! CONF_UNIT_SYSTEM) as [v |].
    - destruct Hunits as (v' & Hc & Hout).
      rewrite (proj1 (proj2 (proj2 (C _)))) in Hc.
      apply in_checked in Hc as (s & _ & -> & _). rewrite Hout. exists s. reflexivity.
    - change (default_of (PLATFORM_SCHEMA_DICT cv) CONF_UNIT_SYSTEM)
        with (@None value) in Hunits.
      rewrite Hunits. exists hass_units. reflexivity. }
  destruct Ename as [name Ename], Emode as [tm Emode], Eroute as [rm Eroute],
    Eunits as [units Eunits].
  exists (new_sensor name origin destination tm rm units).
  unfold async_setup_platform, config_getitem, getitem.
  rewrite Hkey. cbn [mbind outcome_bind].
  rewrite Eo. cbn [mbind outcome_bind].
  rewrite Ed. cbn [mbind outcome_bind].
  rewrite Ekey. cbn [openrouteservice_Client mbind outcome_bind mret outcome_ret].
  unfold dict_get. rewrite Ename, Emode, Eroute, Eunits.
  reflexivity.
Qed.

Lemma validated_configuration_sets_up_witness :
  typed_validators cv_strict
  /\ exists out sensor,
       PLATFORM_SCHEMA cv_strict sample_config = Some out
       /\ async_setup_platform "metric" [] out
          = Some (Ok {| setup_registry := [sensor];
                        setup_entities := [sensor];
                        setup_update_before_add := true |}).
Proof.
  assert (T : typed_validators cv_strict).
  { repeat split; intros [| b | z | x | s] v' E; try discriminate E;
      injection E as <-; eexists; reflexivity. }
  split; [exact T |].
  destruct sample_config_accepted as [out E].
  destruct (validated_configuration_sets_up cv_strict "metric" [] sample_config out T E)
    as [sensor Hs].
  exists out, sensor. exact (conj E Hs).
Defined.


(** ** From the configuration to the request *)

(** The modes of the sensor the setup builds are those of the
    configuration. *)
Lemma setup_returns_modes (hass_units : string)
    (registry : list OpenRouteTravelTimeSensor.t) (config : gmap string value)
    (st : Setup) :
  async_setup_platform hass_units registry config = Some (Ok st) ->
  exists name origin destination travel_mode route_mode units,
    configured_location config CONF_ORIGIN_LATITUDE CONF_ORIGIN_LONGITUDE
      CONF_ORIGIN_ENTITY_ID = Ok (VStr origin)
    /\ configured_location config CONF_DESTINATION_LATITUDE
         CONF_DESTINATION_LONGITUDE CONF_DESTINATION_ENTITY_ID = Ok (VStr destination)
    /\ dict_get config CONF_MODE = VStr travel_mode
    /\ dict_get config CONF_ROUTE_MODE = VStr route_mode
    /\ setup_entities st
       = [new_sensor name origin destination travel_mode route_mode units].
Proof.
  unfold async_setup_platform.
  destruct (config_getitem config CONF_API_KEY) as [api_key | e];
    cbn [mbind outcome_bind]; [| discriminate].
  destruct (configured_location config CONF_ORIGIN_LATITUDE _ _) as [origin | e];
    cbn [mbind outcome_bind]; [| discriminate].
  destruct (configured_location config CONF_DESTINATION_LATITUDE _ _)
    as [destination | e];
    cbn [mbind outcome_bind]; [| discriminate].
  destruct (openrouteservice_Client api_key) as [[] | e];
    cbn [mbind outcome_bind mret outcome_ret]; [| discriminate].
  destruct origin as [| | | | o]; try discriminate.
  destruct destination as [| | | | d]; try discriminate.
  destruct (dict_get config CONF_MODE) as [| | | | tm]; try discriminate.
  destruct (dict_get config CONF_ROUTE_MODE) as [| | | | rm]; try discriminate.
  cbn [as_str].
  destruct (as_str (dict_get config CONF_NAME)) as [name |]; [| discriminate].
  destruct (as_str (default _ (config !! CONF_UNIT_SYSTEM))) as [units |];
    [| discriminate].
  intros [= <-]. exists name, o, d, tm, rm, units. repeat split.
Qed.

Lemma new_sensor_modes (name origin destination travel_mode route_mode units : string) :
  let d := OpenRouteTravelTimeSensor._open_route_data
             (new_sensor name origin destination travel_mode route_mode units) in
  OpenRouteTravelTimeData.travel_mode d = travel_mode
  /\ OpenRouteTravelTimeData.route_mode d = route_mode
  /\ OpenRouteTravelTimeData.units d = units.
Proof.
  unfold new_sensor, OpenRouteTravelTimeSensor.__init__.
  destruct (OpenRouteTravelTimeSensor.is_trackable origin),
           (OpenRouteTravelTimeSensor.is_trackable destination); repeat split.
Qed.

(** A sensor between two static coordinate strings sends, at a poll, the
    directions request for them. *)
Lemma static_sensor_request (hass : HomeAssistant) (client : Client)
    (s : OpenRouteTravelTimeSensor.t) (olat olon dlat dlon : string) :
  OpenRouteTravelTimeSensor._origin_entity_id s = None ->
  OpenRouteTravelTimeSensor._destination_entity_id s = None ->
  OpenRouteTravelTimeData.origin (OpenRouteTravelTimeSensor._open_route_data s)
  = Some (olat ++ "," ++ olon) ->
  OpenRouteTravelTimeData.destination (OpenRouteTravelTimeSensor._open_route_data s)
  = Some (dlat ++ "," ++ dlon) ->
  has_char "," olat = false -> has_char "," olon = false ->
  has_char "," dlat = false -> has_char "," dlon = false ->
  exists rest : list call,
    snd (OpenRouteTravelTimeSensor.async_update hass client s)
    = Directions ([dlon; dlat], [olon; olat])
        (OpenRouteTravelTimeData.travel_mode (OpenRouteTravelTimeSensor._open_route_data s))
        (OpenRouteTravelTimeData.route_mode (OpenRouteTravelTimeSensor._open_route_data s))
      :: rest
    /\ (length rest <= 2)%nat.
Proof.
  intros Hoid Hdid Ho Hd C1 C2 C3 C4.
  rewrite async_update_resolved.
  replace (resolved_data hass s) with (OpenRouteTravelTimeSensor._open_route_data s)
    by (unfold resolved_data; rewrite Hoid, Hdid; reflexivity).
  destruct (OpenRouteTravelTimeData.update client _) as [[r d'] calls] eqn:E.
  apply update_calls_shape in E. rewrite Ho, Hd in E.
  destruct E as (rest & -> & Hlen). exists rest. split; [| exact Hlen].
  unfold directions_call, coords_of. simpl.
  change ("," +:+ olon) with (String "," olon).
  change ("," +:+ dlon) with (String "," dlon).
  rewrite (split_pair _ _ _ C1 C2), (split_pair _ _ _ C3 C4).
  reflexivity.
Qed.

(** From the configuration to the wire: a sensor set up between two
    coordinate pairs asks at every poll, whatever the host's entities and the
    service's earlier answers were, for directions between the same two
    points, the destination first and each point as [[lon, lat]], with the
    configured modes. *)
Theorem configured_coordinates_are_requested (hass_units : string)
    (registry : list OpenRouteTravelTimeSensor.t) (config : gmap string value)
    (st : Setup) (olat olon dlat dlon : float) (travel_mode route_mode : string)
    (sensor s : OpenRouteTravelTimeSensor.t) (hass : HomeAssistant) (client : Client) :
  async_setup_platform hass_units registry config = Some (Ok st) ->
  config !! CONF_ORIGIN_LATITUDE = Some (VFloat olat) ->
  config !! CONF_ORIGIN_LONGITUDE = Some (VFloat olon) ->
  config !! CONF_DESTINATION_LATITUDE = Some (VFloat dlat) ->
  config !! CONF_DESTINATION_LONGITUDE = Some (VFloat dlon) ->
  config !! CONF_MODE = Some (VStr travel_mode) ->
  config !! CONF_ROUTE_MODE = Some (VStr route_mode) ->
  setup_entities st = [sensor] ->
  polled sensor s ->
  exists rest : list call,
    snd (OpenRouteTravelTimeSensor.async_update hass client s)
    = Directions ([str_of_float dlon; str_of_float dlat],
                  [str_of_float olon; str_of_float olat]) travel_mode route_mode
      :: rest
    /\ (length rest <= 2)%nat.
Proof.
  intros Hset Holat Holon Hdlat Hdlon Hmode Hroute Hent Hp.
  apply setup_returns_modes in Hset
    as (name & origin & destination & tm & rm & units & Eo & Ed & Etm & Erm & Est).
  rewrite (configured_location_coordinates _ _ _ _ _ _ Holat Holon) in Eo.
  rewrite (configured_location_coordinates _ _ _ _ _ _ Hdlat Hdlon) in Ed.
  injection Eo as <-. injection Ed as <-.
  unfold dict_get in Etm, Erm. rewrite Hmode in Etm. rewrite Hroute in Erm.
  injection Etm as <-. injection Erm as <-.
  rewrite Est in Hent. injection Hent as <-.
  pose proof (new_sensor_origin name (str_of_float olat ++ "," ++ str_of_float olon)
                (str_of_float dlat ++ "," ++ str_of_float dlon)
                travel_mode route_mode units) as Hso.
  pose proof (new_sensor_destination name
                (str_of_float olat ++ "," ++ str_of_float olon)
                (str_of_float dlat ++ "," ++ str_of_float dlon)
                travel_mode route_mode units) as Hsd.
  cbv zeta in Hso, Hsd.
  rewrite (coordinate_chars_not_trackable _ (lat_lon_chars olat olon)) in Hso.
  rewrite (coordinate_chars_not_trackable _ (lat_lon_chars dlat dlon)) in Hsd.
  destruct Hso as [Hoid Ho], Hsd as [Hdid Hd].
  pose proof (polled_configuration _ _ Hp) as
    (_ & _ & Poid & Pdid & Ptm & Prm & _ & Po & Pd).
  cbv zeta in Ptm, Prm, Po, Pd.
  specialize (Po Hoid). specialize (Pd Hdid).
  rewrite Hoid in Poid. rewrite Hdid in Pdid.
  rewrite Ho in Po. rewrite Hd in Pd.
  destruct (static_sensor_request hass client s _ _ _ _ Poid Pdid Po Pd
              (str_of_float_no_comma olat) (str_of_float_no_comma olon)
              (str_of_float_no_comma dlat) (str_of_float_no_comma dlon))
    as (rest & Hcalls & Hlen).
  exists rest. split; [| exact Hlen].
  destruct (new_sensor_modes name (str_of_float olat ++ "," ++ str_of_float olon)
              (str_of_float dlat ++ "," ++ str_of_float dlon)
              travel_mode route_mode units) as (Mtm & Mrm & _).
  rewrite Hcalls, Ptm, Prm, Mtm, Mrm. reflexivity.
Qed.

Lemma configured_coordinates_are_requested_witness :
  let s := snd (fst (OpenRouteTravelTimeSensor.async_update
                       no_entities geocoder_down sensor_coordinates)) in
  async_setup_platform "metric" [] config_coordinates = Some (Ok setup_coordinates)
  /\ polled sensor_coordinates s
  /\ exists rest : list call,
       snd (OpenRouteTravelTimeSensor.async_update sample_hass service_up s)
       = Directions ([str_of_float 11.5; str_of_float 48.1],
                     [str_of_float 13.4; str_of_float 52.5])
           "driving-car" "fastest" :: rest
       /\ (length rest <= 2)%nat.
Proof.
  intros s.
  assert (E : async_setup_platform "metric" [] config_coordinates
              = Some (Ok setup_coordinates)) by (vm_compute; reflexivity).
  assert (P : polled sensor_coordinates s).
  { apply (polled_update sensor_coordinates no_entities geocoder_down
             sensor_coordinates s (Raise (ClientError "timeout"))
             (snd (OpenRouteTravelTimeSensor.async_update
                     no_entities geocoder_down sensor_coordinates))
             (polled_start sensor_coordinates)).
    vm_compute. reflexivity. }
  split; [exact E |]. split; [exact P |].
  apply (configured_coordinates_are_requested "metric" [] config_coordinates
           setup_coordinates 52.5 13.4 48.1 11.5 "driving-car" "fastest"
           sensor_coordinates s sample_hass service_up E);
    try (vm_compute; reflexivity).
  exact P.
Defined.


(** ** What the sensor presents *)

(** [state] fails on a duration that is no finite number: [round] raises
    [ValueError] on a NaN and [OverflowError] on an infinity, and the
    property has no handler.  It raises nothing else, and what it returns
    for a stored duration is a numeral. *)
Theorem state_raises_on_unbounded_duration (s : OpenRouteTravelTimeSensor.t)
    (duration : float) :
  OpenRouteTravelTimeData.duration (OpenRouteTravelTimeSensor._open_route_data s)
  = Some duration ->
  (Prim2SF duration = S754_nan ->
   OpenRouteTravelTimeSensor.state s = Raise ValueError)
  /\ (forall sign : bool,
        Prim2SF duration = S754_infinity sign ->
        OpenRouteTravelTimeSensor.state s = Raise OverflowError)
  /\ (forall e : exn,
        OpenRouteTravelTimeSensor.state s = Raise e ->
        e = ValueError \/ e = OverflowError)
  /\ (forall v : option string,
        OpenRouteTravelTimeSensor.state s = Ok v ->
        exists minutes : Z,
          v = Some (str_of_int minutes)
          /\ all_chars numeral_char (str_of_int minutes) = true).
Proof.
  intros Hd. unfold OpenRouteTravelTimeSensor.state. rewrite Hd.
  unfold round.
  assert (Hdiv : Prim2SF (duration / 60)
                 = SF64div (Prim2SF duration) (Prim2SF 60))
    by apply FloatAxioms.div_spec.
  split; [| split; [| split]].
  - intros Hnan. rewrite Hdiv, Hnan. reflexivity.
  - intros sign Hinf. rewrite Hdiv, Hinf. reflexivity.
  - intros e. destruct (Prim2SF (duration / 60)); simpl; intros [= <-]; auto.
  - intros v. destruct (Prim2SF (duration / 60)); simpl; intros [= <-];
      eexists; (split; [reflexivity | apply str_of_int_chars]).
Qed.

Lemma state_raises_on_unbounded_duration_witness :
  OpenRouteTravelTimeSensor.state sensor_nan = Raise ValueError.
Proof.
  exact (proj1 (state_raises_on_unbounded_duration sensor_nan nan eq_refl) eq_refl).
Defined.

(** What a sensor presents besides its state is fixed when it is built:
    under polling the name stays, the unit of measurement is minutes, the
    icon is that of the travel mode (a bicycle, a pedestrian, and a car for
    anything else), and the attributes, when they are exposed, carry the
    travel mode, the route mode and the unit system the sensor was built
    with. *)
Theorem presentation_is_fixed (name origin destination travel_mode route_mode units : string)
    (s : OpenRouteTravelTimeSensor.t) :
  polled (new_sensor name origin destination travel_mode route_mode units) s ->
  OpenRouteTravelTimeSensor.name s = name
  /\ OpenRouteTravelTimeSensor.unit_of_measurement s = "min"
  /\ OpenRouteTravelTimeSensor.icon s
     = (if String.eqb travel_mode "cycling-regular" then "mdi:bike"
        else if String.eqb travel_mode "foot-walking" then "mdi:walk"
        else "mdi:car")
  /\ (forall res : gmap string value,
        OpenRouteTravelTimeSensor.device_state_attributes s = Some res ->
        res !! CONF_MODE = Some (VStr travel_mode)
        /\ res !! CONF_ROUTE_MODE = Some (VStr route_mode)
        /\ res !! CONF_UNIT_SYSTEM = Some (VStr units)).
Proof.
  intros Hp.
  pose proof (polled_configuration _ _ Hp) as
    (Pn & Pu & _ & _ & Ptm & Prm & Pun & _).
  cbv zeta in Ptm, Prm, Pun.
  destruct (new_sensor_modes name origin destination travel_mode route_mode units)
    as (Mtm & Mrm & Mun).
  rewrite Mtm in Ptm. rewrite Mrm in Prm. rewrite Mun in Pun.
  unfold OpenRouteTravelTimeSensor.name, OpenRouteTravelTimeSensor.unit_of_measurement,
    OpenRouteTravelTimeSensor.icon, OpenRouteTravelTimeSensor.device_state_attributes.
  rewrite Pn, Pu, Ptm, Prm, Pun.
  split; [| split; [| split]].
  - unfold new_sensor, OpenRouteTravelTimeSensor.__init__.
    destruct (OpenRouteTravelTimeSensor.is_trackable origin),
             (OpenRouteTravelTimeSensor.is_trackable destination); reflexivity.
  - unfold new_sensor, OpenRouteTravelTimeSensor.__init__.
    destruct (OpenRouteTravelTimeSensor.is_trackable origin),
             (OpenRouteTravelTimeSensor.is_trackable destination); reflexivity.
  - reflexivity.
  - intros res.
    destruct (OpenRouteTravelTimeData.duration
                (OpenRouteTravelTimeSensor._open_route_data s)); [| discriminate].
    intros [= <-]. repeat split.
Qed.

Lemma presentation_is_fixed_witness :
  let s := snd (fst (OpenRouteTravelTimeSensor.async_update
                       no_entities service_up sample_sensor)) in
  OpenRouteTravelTimeSensor.name s = "Commute"
  /\ OpenRouteTravelTimeSensor.unit_of_measurement s = "min"
  /\ OpenRouteTravelTimeSensor.icon s = "mdi:car".
Proof.
  intros s.
  assert (P : polled sample_sensor s).
  { apply (polled_update sample_sensor no_entities service_up sample_sensor s
             (Ok tt)
             (snd (OpenRouteTravelTimeSensor.async_update
                     no_entities service_up sample_sensor))
             (polled_start sample_sensor)).
    vm_compute. reflexivity. }
  destruct (presentation_is_fixed "Commute" "52.5,13.4" "48.1,11.5" TRAVEL_MODE_CAR
              ROUTE_MODE_FASTEST CONF_UNIT_SYSTEM_IMPERIAL s P)
    as (Hn & Hu & Hi & _).
  exact (conj Hn (conj Hu Hi)).
Defined.
